(** * MapStore2: share panel coordinates and the map-template epics

    A shallow embedding of [web/client/components/share/SharePanel.jsx]
    (the [getLatLng] / [getCoordinates] methods) and of the map-template
    epics ([errorToMessageId], [openMapTemplatesPanelEpic],
    [mergeTemplateEpic], [replaceTemplateEpic]).

    JavaScript values are an inductive type, exceptions are an error
    monad, and an RxJS observable is the finite record of what one
    subscription does: the calls it makes to the collaborators, the
    values it emits, and how it ends. *)

From Stdlib Require Import ZArith List String Ascii Bool Lia DecimalString.
Import ListNotations.
Open Scope string_scope.
Set Warnings "-register-all".

(* ================================================================== *)
(** ** JavaScript values *)

Module Js.

(** Numbers are integers here: the code only tests a number for being
    zero (truthiness) and compares a status with 403 and 404.  A function
    value is opaque and carries its name. *)
Inductive JsVal : Type :=
| JUndefined
| JNull
| JBool (b : bool)
| JNum (n : Z)
| JStr (s : string)
| JObj (fields : list (string * JsVal))
| JArr (items : list JsVal)
| JFun (name : string).

(** The own enumerable properties of an object, in insertion order.  A key
    is read at its first occurrence. *)
Definition JsObj : Type := list (string * JsVal).

(** A computation that returns or throws a JavaScript value; also the
    outcome of a promise (resolved or rejected). *)
Inductive Result (A : Type) : Type :=
| Ok (a : A)
| Throw (e : JsVal).
Arguments Ok {A} a.
Arguments Throw {A} e.

Definition bind {A B} (c : Result A) (k : A -> Result B) : Result B :=
  match c with
  | Ok a => k a
  | Throw e => Throw e
  end.

Notation "x <- c ;; k" := (bind c (fun x => k))
  (at level 61, c at next level, right associativity).

Definition TypeError (message : string) : JsVal :=
  JObj [("name", JStr "TypeError"); ("message", JStr message)].

(** ToBoolean. *)
Definition truthy (v : JsVal) : bool :=
  match v with
  | JUndefined | JNull => false
  | JBool b => b
  | JNum n => negb (n =? 0)%Z
  | JStr s => negb (s =? "")
  | JObj _ | JArr _ | JFun _ => true
  end.

(** [a || b] and [a && b] on values both operands of which are already
    evaluated. *)
Definition js_or (a b : JsVal) : JsVal := if truthy a then a else b.
Definition js_and (a b : JsVal) : JsVal := if truthy a then b else a.

Definition nullish (v : JsVal) : bool :=
  match v with
  | JUndefined | JNull => true
  | _ => false
  end.

(** [a === b].  Two objects, arrays or functions are equal only when they
    are the same reference; the values compared by this code ([id],
    [status], [name]) are primitives, and two non-primitives are taken to
    be distinct references. *)
Definition strict_eq (a b : JsVal) : bool :=
  match a, b with
  | JUndefined, JUndefined => true
  | JNull, JNull => true
  | JBool x, JBool y => Bool.eqb x y
  | JNum x, JNum y => (x =? y)%Z
  | JStr x, JStr y => (x =? y)
  | _, _ => false
  end.

Fixpoint assoc (k : string) (fs : JsObj) : option JsVal :=
  match fs with
  | [] => None
  | (k', v) :: rest => if k' =? k then Some v else assoc k rest
  end.

(** [{...fs, k: v}]: an existing key keeps its place, a new one goes last. *)
Fixpoint obj_set (k : string) (v : JsVal) (fs : JsObj) : JsObj :=
  match fs with
  | [] => [(k, v)]
  | (k', v') :: rest =>
      if k' =? k then (k', v) :: rest else (k', v') :: obj_set k v rest
  end.

Fixpoint obj_remove (k : string) (fs : JsObj) : JsObj :=
  match fs with
  | [] => []
  | (k', v') :: rest =>
      if k' =? k then obj_remove k rest else (k', v') :: obj_remove k rest
  end.

Definition index_key (n : nat) : string :=
  NilEmpty.string_of_uint (Nat.to_uint n).

Fixpoint indexed (n : nat) (xs : list JsVal) : JsObj :=
  match xs with
  | [] => []
  | x :: rest => (index_key n, x) :: indexed (S n) rest
  end.

Fixpoint chars (s : string) : list JsVal :=
  match s with
  | EmptyString => []
  | String c rest => JStr (String c EmptyString) :: chars rest
  end.

(** What an object spread [{...v}] copies. *)
Definition own_props (v : JsVal) : JsObj :=
  match v with
  | JObj fs => fs
  | JArr xs => indexed 0 xs
  | JStr s => indexed 0 (chars s)
  | _ => []
  end.

(** The inherited properties among the names this code reads on a value
    of unknown shape: an array has [map], a function has [name]. *)
Definition inherited (v : JsVal) (k : string) : option JsVal :=
  match v with
  | JArr _ => if k =? "map" then Some (JFun "map") else None
  | JFun n => if k =? "name" then Some (JStr n) else None
  | _ => None
  end.

(** [v[k]] for a [v] that is neither [null] nor [undefined]. *)
Definition lookup (v : JsVal) (k : string) : JsVal :=
  match assoc k (own_props v) with
  | Some x => x
  | None =>
      match inherited v k with
      | Some x => x
      | None => JUndefined
      end
  end.

(** [k in Object(v)]. *)
Definition has_in (v : JsVal) (k : string) : bool :=
  match assoc k (own_props v), inherited v k with
  | None, None => false
  | _, _ => true
  end.

(** The member expression [v.k]: a TypeError on [null] and [undefined]. *)
Definition member (v : JsVal) (k : string) : Result JsVal :=
  if nullish v
  then Throw (TypeError ("Cannot read property '" ++ k ++ "'"))
  else Ok (lookup v k).

(** *** lodash *)

Definition isObject (v : JsVal) : bool :=
  match v with
  | JObj _ | JArr _ | JFun _ => true
  | _ => false
  end.

Definition isString (v : JsVal) : bool :=
  match v with
  | JStr _ => true
  | _ => false
  end.

Definition isArray (v : JsVal) : bool :=
  match v with
  | JArr _ => true
  | _ => false
  end.

(** [castArray]-style wrapping written out in the source as
    [isArray(x) ? x : [x]]. *)
Definition array_or_singleton (v : JsVal) : list JsVal :=
  match v with
  | JArr xs => xs
  | _ => [v]
  end.

Fixpoint get_path (v : JsVal) (path : list string) : JsVal :=
  match path with
  | [] => v
  | k :: rest => if nullish v then JUndefined else get_path (lookup v k) rest
  end.

(** [get(v, path, default)]: the default replaces an [undefined] result. *)
Definition get (v : JsVal) (path : list string) (default : JsVal) : JsVal :=
  match get_path v path with
  | JUndefined => default
  | x => x
  end.

(** [pick(v, ...keys)]: the keys that [v] has, in the order asked. *)
Definition pick (v : JsVal) (keys : list string) : JsObj :=
  if nullish v then []
  else fold_left
         (fun acc k => if has_in v k then obj_set k (lookup v k) acc else acc)
         keys [].

(** [omit(o, k)] on an object. *)
Definition omit (o : JsObj) (k : string) : JsObj := obj_remove k o.

(** [find(xs, p)]: the first element on which [p] holds, or [undefined]. *)
Fixpoint find (xs : list JsVal) (p : JsVal -> Result bool) : Result JsVal :=
  match xs with
  | [] => Ok JUndefined
  | x :: rest =>
      b <- p x ;;
      if b then Ok x else find rest p
  end.

(** [xs.map(f)] for an [f] that may throw. *)
Fixpoint mapM {A B} (f : A -> Result B) (xs : list A) : Result (list B) :=
  match xs with
  | [] => Ok []
  | x :: rest =>
      y <- f x ;;
      ys <- mapM f rest ;;
      Ok (y :: ys)
  end.

(** [cloneDeep]: a structural copy. *)
Fixpoint cloneDeep (v : JsVal) : JsVal :=
  match v with
  | JObj fs => JObj (List.map (fun kv => (fst kv, cloneDeep (snd kv))) fs)
  | JArr xs => JArr (List.map cloneDeep xs)
  | _ => v
  end.

End Js.

(* ================================================================== *)
(** ** Observables *)

Module Rx.
Import Js.

(** How a subscription ends. *)
Inductive Ending : Type :=
| Completed
| Failed (e : JsVal).

(** The calls a subscription makes to the collaborators that answer with
    a promise: the resource API and the WMC converter.  The calls to the
    map utilities, which return at once, are not logged. *)
Inductive Effect : Type :=
| GetData (id : JsVal)
| ToMapConfig (data : JsVal) (generateLayersGroups : JsVal)
| SearchList (filter : JsVal).

(** One subscription to a finite observable, run until it ends. *)
Record Obs (A : Type) : Type := mkObs {
  effects : list Effect;
  values : list A;
  ending : Ending
}.
Arguments mkObs {A} effects values ending.
Arguments effects {A} o.
Arguments values {A} o.
Arguments ending {A} o.

(** The ids that a run asked [Api.getData] for. *)
Definition fetches (effs : list Effect) : list JsVal :=
  flat_map (fun e => match e with GetData id => [id] | _ => [] end) effs.

(** [Observable.of(...xs)] *)
Definition of_ {A} (xs : list A) : Obs A := mkObs [] xs Completed.

(** [Observable.empty()] *)
Definition empty {A} : Obs A := mkObs [] [] Completed.

(** An observable that fails at once. *)
Definition throwError {A} (e : JsVal) : Obs A := mkObs [] [] (Failed e).

(** [Observable.defer(() => call)] for a [call] that returns a promise:
    the call is made on subscription; a resolved promise emits its value
    and completes, a rejected one (or a throwing call) fails. *)
Definition defer {A} (call : Effect) (outcome : Result A) : Obs A :=
  match outcome with
  | Ok a => mkObs [call] [a] Completed
  | Throw e => mkObs [call] [] (Failed e)
  end.

(** [a.concat(b)]: [b] is subscribed when [a] completes. *)
Definition concat {A} (a b : Obs A) : Obs A :=
  match ending a with
  | Completed =>
      mkObs (effects a ++ effects b) (values a ++ values b) (ending b)
  | Failed _ => a
  end.

(** [a.catch(selector)] *)
Definition catch {A} (a : Obs A) (selector : JsVal -> Result (Obs A))
  : Obs A :=
  match ending a with
  | Completed => a
  | Failed e =>
      match selector e with
      | Ok b => mkObs (effects a ++ effects b) (values a ++ values b) (ending b)
      | Throw e' => mkObs (effects a) (values a) (Failed e')
      end
  end.

(** [source.switchMap(project)], for inner observables that end before
    the source emits again (every source below emits at most once per
    subscription): the inner observables run one after the other; a
    throwing [project] or a failing inner observable fails the result. *)
Fixpoint flatten {A B} (project : A -> Result (Obs B)) (xs : list A)
  (fin : Ending) : Obs B :=
  match xs with
  | [] => mkObs [] [] fin
  | x :: rest =>
      match project x with
      | Throw e => throwError e
      | Ok inner => concat inner (flatten project rest fin)
      end
  end.

Definition switchMap {A B} (source : Obs A) (project : A -> Result (Obs B))
  : Obs B :=
  let inner := flatten project (values source) (ending source) in
  mkObs (effects source ++ effects inner) (values inner) (ending inner).

(** The sources of the epics either emit one value and complete, or fail
    without a value. *)
Inductive SingleShot {A} : Obs A -> Prop :=
| shot_value effs x : SingleShot (mkObs effs [x] Completed)
| shot_failure effs e : SingleShot (mkObs effs [] (Failed e)).

(** [source.filter(p)], as used by [ofType]. *)
Definition filter {A} (p : A -> bool) (source : Obs A) : Obs A :=
  mkObs (effects source) (List.filter p (values source)) (ending source).

(** Modelled from the spec: [wrapStartStop] of [observables/epics], which
    is not among the sources.  Section 4.4: before the resolution starts
    the start action is emitted; on a failure the error is translated by
    the handler into a notification; with or without a failure the
    invocation ends with the end action. *)
Definition wrapStartStop {A} (startAction endAction : A)
  (exceptionHandler : JsVal -> Result (Obs A)) (stream : Obs A) : Obs A :=
  concat (catch (concat (of_ [startAction]) stream) exceptionHandler)
         (of_ [endAction]).

End Rx.

(* ================================================================== *)
(** ** components/share/SharePanel.jsx *)

Module SharePanel.
Import Js.

Section Coordinates.

(** The longitude arithmetic of [getLatLng],
    [round(lng * 1e17) / 1e17] followed by the wrap into [-180, 180), is
    floating point; it is taken as given.  No property below depends on
    the number it yields. *)
Variable correctLng : JsVal -> JsVal.

Definition getLatLng (point : JsVal) : Result JsVal :=
  latlng <- (if truthy point
             then l <- member point "latlng" ;; Ok (js_or l JNull)
             else Ok JNull) ;;
  lngCorrected <- (if truthy latlng
                   then lng <- member latlng "lng" ;; Ok (correctLng lng)
                   else Ok JNull) ;;
  lat <- (if truthy latlng then member latlng "lat" else Ok latlng) ;;
  Ok (JObj [("lat", lat); ("lon", lngCorrected)]).

(** The value that stands to the right of [||] in [getCoordinates]. *)
Definition emptyCoordinates : JsVal :=
  JObj [("lat", JStr ""); ("lon", JStr "")].

(** What stands to the left of that [||]: the literal [{lat: y, lon: x}]. *)
Definition centerCoordinates (x y : JsVal) : JsVal :=
  JObj [("lat", y); ("lon", x)].

(** [getCoordinates] with the right operand of its [||] as a parameter.
    The conditional binds weaker than [||]:
    [c ? latLng : ({lat: y, lon: x} || fallback)]. *)
Definition getCoordinatesWith (fallback : JsVal) (props : JsVal)
  : Result JsVal :=
  point <- member props "point" ;;
  latLng <- getLatLng point ;;
  center <- member props "center" ;;
  let c := js_or center (JObj [("x", JStr ""); ("y", JStr "")]) in
  x <- member c "x" ;;
  y <- member c "y" ;;
  lat <- (if truthy latLng then member latLng "lat" else Ok latLng) ;;
  if truthy latLng && negb (strict_eq lat JNull)
  then Ok latLng
  else Ok (js_or (centerCoordinates x y) fallback).

Definition getCoordinates (props : JsVal) : Result JsVal :=
  getCoordinatesWith emptyCoordinates props.

End Coordinates.

Section Share.

(** The string conversion of a template literal and of [join], on the
    values whose conversion is not written out below: a number (a
    floating-point format), an object, an array, a function. *)
Variable toStringOther : JsVal -> string.

Definition ToString (v : JsVal) : string :=
  match v with
  | JStr s => s
  | JUndefined => "undefined"
  | JNull => "null"
  | JBool true => "true"
  | JBool false => "false"
  | _ => toStringOther v
  end.

(** [xs.join(sep)]: [null] and [undefined] elements give the empty string. *)
Definition join (xs : list JsVal) (sep : string) : string :=
  String.concat sep
    (List.map (fun x => if nullish x then "" else ToString x) xs).

(** lodash [values(v)]: the own enumerable values, in key order. *)
Definition values_ (v : JsVal) : list JsVal :=
  if nullish v then [] else List.map snd (own_props v).

(** [getSharedGeostoryUrl(removeQueryFromUrl(url))] of [utils/ShareUtils],
    which is not among the sources. *)
Variable sharedUrl : JsVal -> JsVal.

(** [`${a}${text}${b}`] *)
Definition withParam (url : JsVal) (text : string) (value : JsVal) : JsVal :=
  JStr (ToString url ++ text ++ ToString value).

(** [a && b && ...] as a condition, for operands that are member reads:
    the reads stop at the first falsy one. *)
Definition bboxWanted (settings advancedSettings state : JsVal)
  : Result bool :=
  enabled <- member settings "bboxEnabled" ;;
  if negb (truthy enabled) then Ok false
  else if negb (truthy advancedSettings) then Ok false
  else
    advanced <- member advancedSettings "bbox" ;;
    if negb (truthy advanced) then Ok false
    else
      bbox <- member state "bbox" ;;
      Ok (truthy bbox).

Definition homeWanted (settings advancedSettings : JsVal) : Result bool :=
  enabled <- member settings "showHome" ;;
  if negb (truthy enabled) then Ok false
  else if negb (truthy advancedSettings) then Ok false
  else
    advanced <- member advancedSettings "homeButton" ;;
    Ok (truthy advanced).

Definition centerWanted (settings advancedSettings : JsVal) : Result bool :=
  enabled <- member settings "centerAndZoomEnabled" ;;
  if negb (truthy enabled) then Ok false
  else if negb (truthy advancedSettings) then Ok false
  else
    advanced <- member advancedSettings "centerAndZoom" ;;
    Ok (truthy advanced).

(** [reverse(values(this.state.coordinate)).join(',')] *)
Definition centerOrMarker (coordinate : JsVal) : string :=
  join (rev (values_ coordinate)) ",".

(** [getShareUrl], from the props and the state of the component. *)
Definition getShareUrl (props state : JsVal) : Result JsVal :=
  settings <- member props "settings" ;;
  advancedSettings <- member props "advancedSettings" ;;
  url <- member props "shareUrl" ;;
  let shareUrl := sharedUrl url in
  bbox <- bboxWanted settings advancedSettings state ;;
  shareUrl <- (if bbox : bool
               then stateBbox <- member state "bbox" ;;
                    Ok (withParam shareUrl "?bbox=" stateBbox)
               else Ok shareUrl) ;;
  home <- homeWanted settings advancedSettings ;;
  let shareUrl :=
    if home : bool then JStr (ToString shareUrl ++ "?showHome=true")
    else shareUrl in
  center <- centerWanted settings advancedSettings ;;
  if center : bool
  then
    coordinate <- member state "coordinate" ;;
    marker <- member settings "markerEnabled" ;;
    zoom <- member state "zoom" ;;
    if truthy marker
    then Ok (JStr (ToString shareUrl ++ "?marker=" ++ centerOrMarker coordinate
                   ++ "&zoom=" ++ ToString zoom))
    else Ok (JStr (ToString shareUrl ++ "?center=" ++ centerOrMarker coordinate
                   ++ "&zoom=" ++ ToString zoom))
  else Ok shareUrl.

End Share.

(** The tab shown by [render]:
    [!this.props.embedPanel && this.state.eventKey === 3 ? 1
                                                        : this.state.eventKey] *)
Definition currentTab (props state : JsVal) : Result JsVal :=
  embedPanel <- member props "embedPanel" ;;
  eventKey <- member state "eventKey" ;;
  if negb (truthy embedPanel) && strict_eq eventKey (JNum 3)
  then Ok (JNum 1)
  else Ok eventKey.

(** The value of the zoom field:
    [this.state.zoom || this.props.zoom || 21] *)
Definition zoomValue (props state : JsVal) : Result JsVal :=
  stateZoom <- member state "zoom" ;;
  if truthy stateZoom then Ok stateZoom
  else
    propsZoom <- member props "zoom" ;;
    Ok (js_or propsZoom (JNum 21)).

(** What the checkboxes of [renderAdvancedSettings] pass to
    [onUpdateSettings] ([toggleCenterAndZoom]: once
    [this.props.identifyDisable()] has returned); [!x] is a boolean. *)
Definition js_not (v : JsVal) : JsVal := JBool (negb (truthy v)).

Definition toggleBbox (props : JsVal) : Result JsVal :=
  settings <- member props "settings" ;;
  enabled <- member settings "bboxEnabled" ;;
  Ok (JObj (obj_set "centerAndZoomEnabled" (JBool false)
           (obj_set "bboxEnabled" (js_not enabled)
           (own_props settings)))).

Definition toggleCenterAndZoom (props : JsVal) : Result JsVal :=
  settings <- member props "settings" ;;
  enabled <- member settings "centerAndZoomEnabled" ;;
  Ok (JObj (obj_set "bboxEnabled" (JBool false)
           (obj_set "centerAndZoomEnabled" (js_not enabled)
           (own_props settings)))).

Definition toggleHome (props : JsVal) : Result JsVal :=
  settings <- member props "settings" ;;
  enabled <- member settings "showHome" ;;
  Ok (JObj (obj_set "showHome" (js_not enabled) (own_props settings))).

Definition toggleMarker (props : JsVal) : Result JsVal :=
  settings <- member props "settings" ;;
  enabled <- member settings "markerEnabled" ;;
  Ok (JObj (obj_set "markerEnabled" (js_not enabled) (own_props settings))).

(** The bounding box and the center are not both asked for. *)
Definition exclusive (settings : JsVal) : bool :=
  negb (truthy (lookup settings "bboxEnabled") &&
        truthy (lookup settings "centerAndZoomEnabled")).

End SharePanel.

(* ================================================================== *)
(** ** The map-template epics *)

Module MapTemplates.
Import Js Rx.

(** The dispatch surface: the actions the epics consume and produce. *)
Inductive Action : Type :=
| OpenMapTemplatesPanel
| ClearMapTemplates
| MergeTemplate (id : JsVal)
| ReplaceTemplate (id : JsVal)
| SetControlProperty (control property : string) (value toggle : JsVal)
| SetTemplates (templates : JsVal)
| SetMapTemplatesLoaded (loaded : bool) (error : JsVal)
| SetTemplateData (id data : JsVal)
| SetTemplateLoading (id : JsVal) (loading : bool)
| ConfigureMap (config mapId zoomToExtent : JsVal)
| ShowError (notification : JsVal).

Inductive ActionType : Type :=
| OPEN_MAP_TEMPLATES_PANEL
| CLEAR_MAP_TEMPLATES
| MERGE_TEMPLATE
| REPLACE_TEMPLATE
| OtherType.

Definition action_type (a : Action) : ActionType :=
  match a with
  | OpenMapTemplatesPanel => OPEN_MAP_TEMPLATES_PANEL
  | ClearMapTemplates => CLEAR_MAP_TEMPLATES
  | MergeTemplate _ => MERGE_TEMPLATE
  | ReplaceTemplate _ => REPLACE_TEMPLATE
  | _ => OtherType
  end.

Definition type_eqb (a b : ActionType) : bool :=
  match a, b with
  | OPEN_MAP_TEMPLATES_PANEL, OPEN_MAP_TEMPLATES_PANEL
  | CLEAR_MAP_TEMPLATES, CLEAR_MAP_TEMPLATES
  | MERGE_TEMPLATE, MERGE_TEMPLATE
  | REPLACE_TEMPLATE, REPLACE_TEMPLATE
  | OtherType, OtherType => true
  | _, _ => false
  end.

(** [action$.ofType(t)] *)
Definition ofType (t : ActionType) (actions : Obs Action) : Obs Action :=
  Rx.filter (fun a => type_eqb (action_type a) t) actions.

(** The [id] that [({id}) => ...] takes out of an action. *)
Definition action_id (a : Action) : JsVal :=
  match a with
  | MergeTemplate id | ReplaceTemplate id => id
  | _ => JUndefined
  end.

(** The slices of the store that the selectors of the epics read.  The
    templates and the context templates are arrays: a store in which
    one of these selectors yields [undefined] is not a [State]. *)
Record State : Type := mkState {
  templates : list JsVal;          (* templatesSelector *)
  contextTemplates : list JsVal;   (* selectors/context templatesSelector *)
  mapTemplatesLoaded : JsVal;      (* mapTemplatesLoadedSelector *)
  map : JsVal;                     (* mapSelector *)
  layers : JsVal;                  (* layersSelector *)
  groups : JsVal;                  (* groupsSelector *)
  backgrounds : JsVal;             (* backgroundListSelector *)
  textSearchConfig : JsVal;        (* textSearchConfigSelector *)
  additionalOptions : JsVal;       (* mapOptionsToSaveSelector *)
  isLoggedIn : bool                (* selectors/security isLoggedIn *)
}.

(** The collaborators of the epics: the resource API, the WMC converter
    and the map utilities.  Each may fail; [mergeMapConfigs] builds an
    object. *)
Record Collaborators : Type := mkCollaborators {
  getData : JsVal -> Result JsVal;
  searchListByAttributes : JsVal -> Result JsVal;
  toMapConfig : JsVal -> JsVal -> Result JsVal;
  saveMapConfiguration :
    JsVal -> JsVal -> JsVal -> JsVal -> JsVal -> JsVal -> Result JsVal;
  mergeMapConfigs : JsVal -> JsVal -> Result JsObj
}.

Definition unknownError : string := "context.errors.template.unknownError".
Definition pleaseLogin : string := "context.errors.template.pleaseLogin".
Definition notAccessible : string := "context.errors.template.notAccessible".
Definition notFound : string := "context.errors.template.notFound".

(** [errorToMessageId(e = {}, getState)]; the state is the one
    [getState()] returns when the error is handled. *)
Definition errorToMessageId (e : JsVal) (state : State) : Result string :=
  let e := match e with JUndefined => JObj [] | _ => e end in
  let message := unknownError in
  status <- member e "status" ;;
  let message :=
    if strict_eq status (JNum 403)
    then (let message := pleaseLogin in
          if isLoggedIn state then notAccessible else message)
    else message in
  status <- member e "status" ;;
  let message :=
    if strict_eq status (JNum 404) then notFound else message in
  Ok message.

(** The message id as one expression: the test for 404 comes last and
    wins over the test for 403. *)
Definition messageFor (status : JsVal) (loggedIn : bool) : string :=
  if strict_eq status (JNum 404) then notFound
  else if strict_eq status (JNum 403)
       then (if loggedIn then notAccessible else pleaseLogin)
       else unknownError.

(** The exception handler both template epics give to [wrapStartStop]. *)
Definition showTemplateError (stateAtError : State) (e : JsVal)
  : Result (Obs Action) :=
  originalError <- member e "originalError" ;;
  messageId <- errorToMessageId (js_or originalError e) stateAtError ;;
  Ok (of_ [ShowError (JObj [("title", JStr "context.errors.template.title");
                            ("message", JStr messageId);
                            ("position", JStr "tc");
                            ("autoDismiss", JNum 5)])]).

Definition clearMapTemplatesEpic (action : Action) : Obs Action :=
  switchMap (ofType CLEAR_MAP_TEMPLATES (of_ [action]))
    (fun _ => Ok (of_ [SetControlProperty "mapTemplates" "enabled"
                         (JBool false) (JBool false)])).

Section Epics.

Variable api : Collaborators.

(** *** openMapTemplatesPanelEpic *)

Definition makeFilter (contextTemplates : list JsVal) : Result JsVal :=
  fields <- mapM (fun template =>
                    id <- member template "id" ;;
                    Ok (JObj [("field", JArr [JStr "ID"]);
                              ("operator", JArr [JStr "EQUAL_TO"]);
                              ("value", JArr [id])]))
                 contextTemplates ;;
  Ok (JObj [("OR", JObj [("FIELD", JArr fields)])]).

Definition extractThumbnail (resource : JsVal) : Result JsVal :=
  let attribute := get resource ["Attributes"; "attribute"] (JObj []) in
  let attributes := array_or_singleton attribute in
  found <- find attributes
             (fun a => name <- member a "name" ;;
                       Ok (strict_eq name (JStr "thumbnail"))) ;;
  Ok (get found ["value"] JUndefined).

Definition newTemplate (resource : JsVal) : Result JsVal :=
  thumbnail <- extractThumbnail resource ;;
  Ok (JObj (obj_set "loading" (JBool false)
           (obj_set "dataLoaded" (JBool false)
           (obj_set "thumbnail" thumbnail
           (pick resource ["id"; "name"; "description"]))))).

Definition resourcesOf (data : JsVal) : list JsVal :=
  array_or_singleton (get data ["ResourceList"; "Resource"] (JArr [])).

Definition openMapTemplatesPanelEpic (state : State) (action : Action)
  : Obs Action :=
  switchMap (ofType OPEN_MAP_TEMPLATES_PANEL (of_ [action]))
    (fun _ =>
       let contextTemplates := contextTemplates state in
       let mapTemplatesLoaded := mapTemplatesLoaded state in
       Ok (concat
             (of_ [SetControlProperty "mapTemplates" "enabled"
                     (JBool true) (JBool true)])
             (if negb (truthy mapTemplatesLoaded)
              then catch
                     (switchMap
                        (if (0 <? List.length contextTemplates)%nat
                         then match makeFilter contextTemplates with
                              | Ok filter =>
                                  defer (SearchList filter)
                                        (searchListByAttributes api filter)
                              | Throw e => throwError e
                              end
                         else of_ [JObj []])
                        (fun data =>
                           newTemplates <- mapM newTemplate (resourcesOf data) ;;
                           Ok (of_ [SetTemplates (JArr newTemplates);
                                    SetMapTemplatesLoaded true JUndefined])))
                     (fun err => Ok (of_ [SetMapTemplatesLoaded true err]))
              else empty))).

(** *** mergeTemplateEpic *)

Definition idIs (id : JsVal) (t : JsVal) : Result bool :=
  tid <- member t "id" ;;
  Ok (strict_eq tid id).

(** [template.dataLoaded ? Observable.of(template.data)
                         : Observable.defer(() => Api.getData(id))] *)
Definition templateData (template id : JsVal) : Result (Obs JsVal) :=
  dataLoaded <- member template "dataLoaded" ;;
  if truthy dataLoaded
  then data <- member template "data" ;; Ok (of_ [data])
  else Ok (defer (GetData id) (getData api id)).

(** [...(!template.dataLoaded ? [setTemplateData(id, data)] : [])] *)
Definition storeData (template id data : JsVal) : list Action :=
  if negb (truthy (lookup template "dataLoaded"))
  then [SetTemplateData id data]
  else [].

(** [isObject(data) && data.map !== undefined] *)
Definition hasMap (data : JsVal) : bool :=
  isObject data && negb (strict_eq (lookup data "map") JUndefined).

(** [isString(data) ? Observable.defer(() => toMapConfig(data, true))
                    : Observable.of(data)] *)
Definition mergeConfigSource (data : JsVal) : Obs JsVal :=
  if isString data
  then defer (ToMapConfig data (JBool true)) (toMapConfig api data (JBool true))
  else of_ [data].

Definition mergeData (state : State) (template id data : JsVal)
  : Result (Obs Action) :=
  if hasMap data || isString data
  then
    currentConfig <- saveMapConfiguration api (map state) (layers state)
                       (groups state) (backgrounds state)
                       (textSearchConfig state) (additionalOptions state) ;;
    Ok (switchMap (mergeConfigSource data)
          (fun config =>
             merged <- mergeMapConfigs api currentConfig config ;;
             Ok (of_ (storeData template id data ++
                      [ConfigureMap
                         (cloneDeep (JObj (omit merged "widgetsConfig")))
                         JNull JUndefined]))))
  else
    Ok (if negb (truthy (lookup template "dataLoaded"))
        then of_ [SetTemplateData id data]
        else empty).

Definition mergeTemplateEpic (state stateAtError : State) (action : Action)
  : Obs Action :=
  switchMap (ofType MERGE_TEMPLATE (of_ [action]))
    (fun a =>
       let id := action_id a in
       template <- find (templates state) (idIs id) ;;
       source <- templateData template id ;;
       Ok (wrapStartStop
             (SetTemplateLoading id true)
             (SetTemplateLoading id false)
             (showTemplateError stateAtError)
             (switchMap source (mergeData state template id)))).

(** *** replaceTemplateEpic *)

(** [!config.map.zoom && (config.map.bbox || config.map.maxExtent)] *)
Definition zoomToExtentOf (cmap : JsVal) : Result JsVal :=
  czoom <- member cmap "zoom" ;;
  if truthy czoom
  then Ok (JBool false)
  else
    bbox <- member cmap "bbox" ;;
    if truthy bbox then Ok bbox else member cmap "maxExtent".

(** [{...config, map: {...config.map, zoom: config.map.zoom || zoom,
                       center: config.map.center || center}}] *)
Definition replacedConfig (zoom center config : JsVal) : Result JsVal :=
  cmap <- member config "map" ;;
  czoom <- member cmap "zoom" ;;
  ccenter <- member cmap "center" ;;
  Ok (JObj (obj_set "map"
              (JObj (obj_set "center" (js_or ccenter center)
                    (obj_set "zoom" (js_or czoom zoom)
                    (own_props cmap))))
              (own_props config))).

Definition replaceConfig (zoom center template id data config : JsVal)
  : Result (Obs Action) :=
  configure <- (if truthy config
                then
                  newConfig <- replacedConfig zoom center config ;;
                  cmap <- member config "map" ;;
                  zoomToExtent <- zoomToExtentOf cmap ;;
                  Ok [ConfigureMap (cloneDeep newConfig) JNull zoomToExtent]
                else Ok []) ;;
  Ok (of_ (storeData template id data ++ configure)).

(** [isString(data) ? Observable.defer(() => toMapConfig(data))
      : Observable.of(isObject(data) && data.map !== undefined ? data : null)] *)
Definition replaceConfigSource (data : JsVal) : Obs JsVal :=
  if isString data
  then defer (ToMapConfig data JUndefined) (toMapConfig api data JUndefined)
  else of_ [if hasMap data then data else JNull].

Definition replaceData (zoom center template id data : JsVal)
  : Result (Obs Action) :=
  Ok (switchMap (replaceConfigSource data)
        (replaceConfig zoom center template id data)).

Definition replaceTemplateEpic (state stateAtError : State) (action : Action)
  : Obs Action :=
  switchMap (ofType REPLACE_TEMPLATE (of_ [action]))
    (fun a =>
       let id := action_id a in
       template <- find (templates state) (idIs id) ;;
       zoom <- member (map state) "zoom" ;;
       center <- member (map state) "center" ;;
       source <- templateData template id ;;
       Ok (wrapStartStop
             (SetTemplateLoading id true)
             (SetTemplateLoading id false)
             (showTemplateError stateAtError)
             (switchMap source (replaceData zoom center template id)))).

End Epics.

(** The [SetTemplateLoading] actions. *)
Definition isLoading (a : Action) : bool :=
  match a with
  | SetTemplateLoading _ _ => true
  | _ => false
  end.

(** Collaborators that never throw (or reject with) [null] or
    [undefined]. *)
Definition ThrowsErrors (api : Collaborators) : Prop :=
  (forall id e, getData api id = Throw e -> nullish e = false) /\
  (forall data flag e, toMapConfig api data flag = Throw e -> nullish e = false) /\
  (forall m l g b t o e,
      saveMapConfiguration api m l g b t o = Throw e -> nullish e = false) /\
  (forall current new e,
      mergeMapConfigs api current new = Throw e -> nullish e = false).

End MapTemplates.

(* ================================================================== *)
(** ** Sample inputs *)

Module Samples.
Import Js Rx MapTemplates.

Definition forbidden : JsVal := JObj [("status", JNum 403)].

Definition resource : JsVal :=
  JObj [("id", JNum 7); ("name", JStr "roads");
        ("Attributes",
         JObj [("attribute",
                JObj [("name", JStr "thumbnail"); ("value", JStr "roads.png")])])].

(** A resource API that refuses every [getData] and whose search answers
    with one resource object (not an array); a converter that yields a
    map with a bounding box and no zoom; map utilities that keep what
    they are given. *)
Definition api : Collaborators :=
  mkCollaborators
    (fun _ => Throw forbidden)
    (fun _ => Ok (JObj [("ResourceList", JObj [("Resource", resource)])]))
    (fun _ _ => Ok (JObj [("map", JObj [("bbox", JStr "0,0,1,1")])]))
    (fun map layers _ _ _ _ => Ok (JObj [("map", map); ("layers", layers)]))
    (fun current new =>
       Ok [("map", lookup current "map");
           ("widgetsConfig", JObj [("widgets", JArr [])]);
           ("layers", lookup new "layers")]).

(** A template whose data is in the cache: a map at zoom 0 with a
    bounding box. *)
Definition worldBbox : JsVal :=
  JObj [("crs", JStr "EPSG:4326");
        ("bounds", JObj [("minx", JNum (-180)); ("miny", JNum (-90));
                         ("maxx", JNum 180); ("maxy", JNum 90)])].

Definition worldData : JsVal :=
  JObj [("map", JObj [("zoom", JNum 0); ("bbox", worldBbox)]);
        ("layers", JArr [])].

Definition cachedTemplate : JsVal :=
  JObj [("id", JNum 1); ("dataLoaded", JBool true); ("loading", JBool false);
        ("data", worldData)].

(** A template whose data was never fetched. *)
Definition freshTemplate : JsVal :=
  JObj [("id", JNum 2); ("dataLoaded", JBool false); ("loading", JBool false)].

(** A template whose cached data has no [map]. *)
Definition noMapTemplate : JsVal :=
  JObj [("id", JNum 3); ("dataLoaded", JBool true); ("loading", JBool false);
        ("data", JObj [("layers", JArr [])])].

Definition currentCenter : JsVal :=
  JObj [("x", JNum 10); ("y", JNum 45); ("crs", JStr "EPSG:4326")].

Definition currentMap : JsVal :=
  JObj [("zoom", JNum 5); ("center", currentCenter)].

(** What replacing the current map by [worldData] dispatches: the current
    zoom and center, the bounding box and the layers of the template. *)
Definition replacedWorld : JsVal :=
  JObj [("map", JObj [("zoom", JNum 5); ("bbox", worldBbox);
                      ("center", currentCenter)]);
        ("layers", JArr [])].

(** A resource API whose data is WMC text, and a converter that rejects
    it. *)
Definition notWmc : JsVal := JObj [("message", JStr "not a WMC")].

Definition wmcApi : Collaborators :=
  mkCollaborators
    (fun _ => Ok (JStr "<ViewContext"))
    (searchListByAttributes api)
    (fun _ _ => Throw notWmc)
    (saveMapConfiguration api)
    (mergeMapConfigs api).

(** The same with a converter that yields a configuration without a
    [map]. *)
Definition mapLessApi : Collaborators :=
  mkCollaborators
    (fun _ => Ok (JStr "<ViewContext"))
    (searchListByAttributes api)
    (fun _ _ => Ok (JObj [("layers", JArr [])]))
    (saveMapConfiguration api)
    (mergeMapConfigs api).

(** A resource API that answers every [getData] with [worldData]. *)
Definition fetchingApi : Collaborators :=
  mkCollaborators
    (fun _ => Ok worldData)
    (searchListByAttributes api)
    (toMapConfig api)
    (saveMapConfiguration api)
    (mergeMapConfigs api).

(** A store whose context lists no template. *)
Definition noContextState : State :=
  mkState [] [] (JBool false)
          currentMap (JArr []) (JArr []) (JArr []) JNull (JObj []) false.

(** A resource API whose search is refused. *)
Definition refusingApi : Collaborators :=
  mkCollaborators
    (getData api)
    (fun _ => Throw forbidden)
    (toMapConfig api)
    (saveMapConfiguration api)
    (mergeMapConfigs api).




(** A template whose cached data is a JSON array, and a store that
    lists it. *)
Definition arrayTemplate : JsVal :=
  JObj [("id", JNum 4); ("dataLoaded", JBool true); ("loading", JBool false);
        ("data", JArr [])].

Definition arrayState : State :=
  mkState [arrayTemplate] [] (JBool true)
          currentMap (JArr []) (JArr []) (JArr []) JNull (JObj []) false.

(** The props and the state of a share panel with the embed tab
    disabled and selected, and the center of the map asked for. *)
Definition shareProps : JsVal :=
  JObj [("shareUrl", JStr "http://localhost/#/viewer/openlayers/1");
        ("settings", JObj [("centerAndZoomEnabled", JBool true)]);
        ("advancedSettings",
         JObj [("bbox", JBool true); ("centerAndZoom", JBool true);
               ("homeButton", JBool true)]);
        ("embedPanel", JBool false);
        ("center", JObj [("x", JStr "10"); ("y", JStr "45")])].

Definition shareState : JsVal :=
  JObj [("eventKey", JNum 3); ("bbox", JStr "");
        ("coordinate", JObj [("lat", JStr "45"); ("lon", JStr "10")]);
        ("zoom", JStr "5")].

(** A panel without advanced settings. *)
Definition plainProps : JsVal :=
  JObj [("shareUrl", JStr "http://localhost/#/viewer/openlayers/1");
        ("settings", JObj [("bboxEnabled", JBool true)])].

(** A clicked point. *)
Definition markerProps : JsVal :=
  JObj [("point",
         JObj [("latlng", JObj [("lat", JStr "45"); ("lng", JStr "10")])]);
        ("center", JObj [("x", JStr "0"); ("y", JStr "0")])].

Definition state : State :=
  mkState [cachedTemplate; freshTemplate; noMapTemplate]
          [JObj [("id", JNum 7)]] (JBool false)
          currentMap (JArr []) (JArr []) (JArr []) JNull (JObj []) false.

End Samples.

(* ================================================================== *)
(** ** Properties *)

Import Js Rx MapTemplates.
Open Scope list_scope.

(** *** Objects *)

Lemma assoc_obj_set_same (k : string) (v : JsVal) (fs : JsObj) :
  assoc k (obj_set k v fs) = Some v.
Proof.
  induction fs as [|[k' v'] fs IH]; simpl.
  - now rewrite String.eqb_refl.
  - destruct (k' =? k) eqn:E; simpl; rewrite E; auto.
Qed.

Lemma assoc_obj_set_other (k k' : string) (v : JsVal) (fs : JsObj) :
  k <> k' -> assoc k' (obj_set k v fs) = assoc k' fs.
Proof.
  intros Hne. induction fs as [|[k0 v0] fs IH]; simpl.
  - destruct (k =? k') eqn:E; auto.
    apply String.eqb_eq in E. contradiction.
  - destruct (k0 =? k) eqn:E; simpl.
    + apply String.eqb_eq in E. subst k0.
      destruct (k =? k') eqn:E'; auto.
      apply String.eqb_eq in E'. contradiction.
    + now rewrite IH.
Qed.



Lemma lookup_JObj (fs : JsObj) (k : string) :
  lookup (JObj fs) k = match assoc k fs with Some x => x | None => JUndefined end.
Proof. reflexivity. Qed.

(** A deep copy of a value is the value: the model has no references. *)
Lemma cloneDeep_id : forall v : JsVal, cloneDeep v = v.
Proof.
  fix IH 1.
  intros [ | | b | n | s | fs | xs | f]; simpl; try reflexivity.
  - f_equal. induction fs as [|[k x] fs IHfs]; simpl.
    + reflexivity.
    + now rewrite IH, IHfs.
  - f_equal. induction xs as [|x xs IHxs]; simpl.
    + reflexivity.
    + now rewrite IH, IHxs.
Qed.

(** *** The error monad *)

Lemma bind_Ok {A B} (c : Result A) (k : A -> Result B) (b : B) :
  bind c k = Ok b -> exists a, c = Ok a /\ k a = Ok b.
Proof. destruct c as [a|e]; simpl; intros H; [eauto | discriminate]. Qed.

Lemma Ok_inj {A} (x y : A) : Ok x = Ok y -> x = y.
Proof. congruence. Qed.

Lemma member_Ok (v : JsVal) (k : string) (x : JsVal) :
  member v k = Ok x -> nullish v = false /\ x = lookup v k.
Proof.
  unfold member. destruct (nullish v); intros H; [discriminate|].
  inversion H. auto.
Qed.

Lemma member_not_nullish (v : JsVal) (k : string) :
  nullish v = false -> member v k = Ok (lookup v k).
Proof. unfold member. now intros ->. Qed.

Lemma truthy_not_nullish (v : JsVal) : truthy v = true -> nullish v = false.
Proof. destruct v; simpl; auto; discriminate. Qed.

Lemma mapM_length {A B} (f : A -> Result B) (xs : list A) (ys : list B) :
  mapM f xs = Ok ys -> List.length ys = List.length xs.
Proof.
  revert ys. induction xs as [|x xs IH]; simpl; intros ys H.
  - inversion H. reflexivity.
  - apply bind_Ok in H as (y & Hy & H).
    apply bind_Ok in H as (ys' & Hys & H).
    inversion H. simpl. f_equal. auto.
Qed.

Lemma mapM_In {A B} (f : A -> Result B) (xs : list A) (ys : list B) (y : B) :
  mapM f xs = Ok ys -> In y ys -> exists x, In x xs /\ f x = Ok y.
Proof.
  revert ys. induction xs as [|x xs IH]; simpl; intros ys H Hin.
  - inversion H. subst. contradiction.
  - apply bind_Ok in H as (y0 & Hy & H).
    apply bind_Ok in H as (ys' & Hys & H).
    inversion H. subst ys. destruct Hin as [<- | Hin].
    + eauto.
    + destruct (IH _ Hys Hin) as (x' & Hx' & Hfx). eauto.
Qed.

(** *** Observables *)

Lemma switchMap_value {A B} effs (x : A) (project : A -> Result (Obs B)) :
  switchMap (mkObs effs [x] Completed) project =
  match project x with
  | Ok inner => mkObs (effs ++ effects inner) (values inner) (ending inner)
  | Throw e => mkObs effs [] (Failed e)
  end.
Proof.
  unfold switchMap. simpl. destruct (project x) as [[ie iv ifin]|e]; simpl.
  - unfold concat. simpl. destruct ifin; simpl; now rewrite ?app_nil_r.
  - now rewrite app_nil_r.
Qed.

Lemma switchMap_failure {A B} effs e (project : A -> Result (Obs B)) :
  switchMap (mkObs effs [] (Failed e)) project = mkObs effs [] (Failed e).
Proof. unfold switchMap. simpl. now rewrite app_nil_r. Qed.

Lemma defer_single_shot {A} call (r : Result A) : SingleShot (defer call r).
Proof. destruct r; constructor. Qed.

Lemma of_single_shot {A} (x : A) : SingleShot (of_ [x]).
Proof. constructor. Qed.

Lemma wrapStartStop_values {A} (s e : A) handler (stream : Obs A) :
  values (wrapStartStop s e handler stream) =
  match ending stream with
  | Completed => s :: values stream ++ [e]
  | Failed err =>
      match handler err with
      | Ok b =>
          match ending b with
          | Completed => s :: values stream ++ values b ++ [e]
          | Failed _ => s :: values stream ++ values b
          end
      | Throw _ => s :: values stream
      end
  end.
Proof.
  unfold wrapStartStop, concat, catch. simpl.
  destruct (ending stream) as [|err]; simpl; auto.
  destruct (handler err) as [b|e']; simpl; auto.
  destruct (ending b); simpl; auto.
  now rewrite <- app_assoc.
Qed.

Lemma wrapStartStop_ending {A} (s e : A) handler (stream : Obs A) :
  ending (wrapStartStop s e handler stream) =
  match ending stream with
  | Completed => Completed
  | Failed err =>
      match handler err with
      | Ok b => ending b
      | Throw e' => Failed e'
      end
  end.
Proof.
  unfold wrapStartStop, concat, catch. simpl.
  destruct (ending stream) as [|err]; simpl; auto.
  destruct (handler err) as [b|e']; simpl; auto.
  destruct (ending b); simpl; auto.
Qed.

Lemma wrapStartStop_effects {A} (s e : A) handler (stream : Obs A) :
  effects (wrapStartStop s e handler stream) =
  match ending stream with
  | Completed => effects stream
  | Failed err =>
      match handler err with
      | Ok b => effects stream ++ effects b
      | Throw _ => effects stream
      end
  end.
Proof.
  unfold wrapStartStop, concat, catch. simpl.
  destruct (ending stream) as [|err]; simpl; [now rewrite app_nil_r|].
  destruct (handler err) as [b|e']; simpl; auto.
  destruct (ending b); simpl; now rewrite ?app_nil_r.
Qed.

(** *** Error translation *)

Lemma strict_eq_num (v : JsVal) (n : Z) :
  strict_eq v (JNum n) = true <-> v = JNum n.
Proof.
  destruct v; simpl; split; intros H; try discriminate; try reflexivity.
  - apply Z.eqb_eq in H. now subst.
  - inversion H. apply Z.eqb_refl.
Qed.

Lemma strict_eq_num_false (v : JsVal) (n : Z) :
  v <> JNum n -> strict_eq v (JNum n) = false.
Proof.
  intros H. destruct (strict_eq v (JNum n)) eqn:E; auto.
  apply strict_eq_num in E. contradiction.
Qed.

Lemma errorToMessageId_eq (e : JsVal) (state : State) :
  e <> JNull ->
  errorToMessageId e state =
  Ok (messageFor (lookup e "status") (isLoggedIn state)).
Proof.
  intros Hnull. unfold errorToMessageId, messageFor.
  destruct e; try contradiction; simpl; try reflexivity.
Qed.

(** C2. For an error [e] (anything but [null], on which reading the
    status throws), [errorToMessageId] returns the "please log in" id
    when the status is 403 and the user is not logged in, "not
    accessible" when it is 403 and the user is logged in, "not found"
    when it is 404, and "unknown error" for every other error. *)
Theorem errorToMessageId_translation (e : JsVal) (state : State) :
  e <> JNull ->
  (lookup e "status" = JNum 403 -> isLoggedIn state = false ->
   errorToMessageId e state = Ok pleaseLogin) /\
  (lookup e "status" = JNum 403 -> isLoggedIn state = true ->
   errorToMessageId e state = Ok notAccessible) /\
  (lookup e "status" = JNum 404 ->
   errorToMessageId e state = Ok notFound) /\
  (lookup e "status" <> JNum 403 -> lookup e "status" <> JNum 404 ->
   errorToMessageId e state = Ok unknownError).
Proof.
  intros Hnull. rewrite (errorToMessageId_eq e state Hnull).
  unfold messageFor. repeat split.
  - intros -> ->. reflexivity.
  - intros -> ->. reflexivity.
  - intros ->. reflexivity.
  - intros H403 H404.
    now rewrite (strict_eq_num_false _ _ H404), (strict_eq_num_false _ _ H403).
Qed.

Lemma errorToMessageId_translation_witness :
  Samples.forbidden <> JNull /\
  errorToMessageId Samples.forbidden Samples.state = Ok pleaseLogin.
Proof.
  split; [discriminate|].
  apply (errorToMessageId_translation Samples.forbidden Samples.state);
    [discriminate | reflexivity | reflexivity].
Defined.

(** *** The share panel *)

(** C9. In [getCoordinates] the left operand of [||] is the object
    literal [{lat: y, lon: x}], truthy whatever [x] and [y] are; the
    result of [getCoordinates] does not depend on the right operand, and
    it is either the [latLng] of the point or that literal. *)
Theorem getCoordinates_fallback_dead
  (correctLng : JsVal -> JsVal) (props fallback : JsVal) :
  (forall x y, truthy (SharePanel.centerCoordinates x y) = true) /\
  (forall x y, js_or (SharePanel.centerCoordinates x y) fallback =
               SharePanel.centerCoordinates x y) /\
  SharePanel.getCoordinatesWith correctLng fallback props =
  SharePanel.getCoordinates correctLng props /\
  (forall r, SharePanel.getCoordinates correctLng props = Ok r ->
     SharePanel.getLatLng correctLng (lookup props "point") = Ok r \/
     exists x y, r = SharePanel.centerCoordinates x y).
Proof.
  split; [reflexivity|]. split; [reflexivity|]. split.
  - reflexivity.
  - intros r. unfold SharePanel.getCoordinates, SharePanel.getCoordinatesWith.
    intros H.
    apply bind_Ok in H as (point & Hpoint & H).
    apply member_Ok in Hpoint as [_ ->].
    apply bind_Ok in H as (latLng & HlatLng & H).
    apply bind_Ok in H as (center & _ & H).
    apply bind_Ok in H as (x & _ & H).
    apply bind_Ok in H as (y & _ & H).
    apply bind_Ok in H as (lat & _ & H).
    destruct (truthy latLng && negb (strict_eq lat JNull))%bool.
    + inversion H. subst. now left.
    + inversion H. right. exists x, y. reflexivity.
Qed.

(** *** The template epics, unfolded *)

Lemma switchMap_single {A B} (x : A) (project : A -> Result (Obs B)) :
  switchMap (of_ [x]) project =
  match project x with
  | Ok inner => inner
  | Throw e => throwError e
  end.
Proof.
  unfold of_. rewrite switchMap_value.
  destruct (project x) as [[ie iv ifin]|e]; reflexivity.
Qed.

Lemma fetches_app (a b : list Effect) :
  fetches (a ++ b) = fetches a ++ fetches b.
Proof. apply flat_map_app. Qed.

Lemma templateData_cases (api : Collaborators) (t id : JsVal) (src : Obs JsVal) :
  templateData api t id = Ok src ->
  nullish t = false /\
  ((truthy (lookup t "dataLoaded") = true /\ src = of_ [lookup t "data"]) \/
   (truthy (lookup t "dataLoaded") = false /\
    src = defer (GetData id) (getData api id))).
Proof.
  unfold templateData. intros H.
  apply bind_Ok in H as (loaded & Hl & H).
  apply member_Ok in Hl as [Hn ->]. split; [assumption|].
  destruct (truthy (lookup t "dataLoaded")).
  - left. rewrite (member_not_nullish _ _ Hn) in H. simpl in H.
    inversion H. auto.
  - right. inversion H. auto.
Qed.

Lemma templateData_Throw (api : Collaborators) (t id e : JsVal) :
  templateData api t id = Throw e -> nullish t = true.
Proof.
  unfold templateData, member. destruct (nullish t); auto.
  simpl. destruct (truthy (lookup t "dataLoaded")); discriminate.
Qed.

Lemma templateData_single_shot (api : Collaborators) (t id : JsVal) src :
  templateData api t id = Ok src -> SingleShot src.
Proof.
  intros H. apply templateData_cases in H as [_ [[_ ->]|[_ ->]]].
  - apply of_single_shot.
  - apply defer_single_shot.
Qed.

Lemma mergeConfigSource_single_shot (api : Collaborators) (data : JsVal) :
  SingleShot (mergeConfigSource api data).
Proof.
  unfold mergeConfigSource. destruct (isString data).
  - apply defer_single_shot.
  - apply of_single_shot.
Qed.

Lemma replaceConfigSource_single_shot (api : Collaborators) (data : JsVal) :
  SingleShot (replaceConfigSource api data).
Proof.
  unfold replaceConfigSource. destruct (isString data).
  - apply defer_single_shot.
  - apply of_single_shot.
Qed.

Lemma mergeConfigSource_fetches (api : Collaborators) (data : JsVal) :
  fetches (effects (mergeConfigSource api data)) = [].
Proof.
  unfold mergeConfigSource. destruct (isString data); [|reflexivity].
  destruct (toMapConfig api data (JBool true)); reflexivity.
Qed.

Lemma replaceConfigSource_fetches (api : Collaborators) (data : JsVal) :
  fetches (effects (replaceConfigSource api data)) = [].
Proof.
  unfold replaceConfigSource. destruct (isString data); [|reflexivity].
  destruct (toMapConfig api data JUndefined); reflexivity.
Qed.

(** What [switchMap] does on a single-shot source. *)
Lemma switchMap_single_shot {A B} (src : Obs A) (project : A -> Result (Obs B)) :
  SingleShot src ->
  (exists x inner,
      values src = [x] /\ project x = Ok inner /\
      switchMap src project =
      mkObs (effects src ++ effects inner) (values inner) (ending inner)) \/
  (exists e, switchMap src project = mkObs (effects src) [] (Failed e)).
Proof.
  intros [effs x|effs e].
  - rewrite switchMap_value. destruct (project x) as [inner|e] eqn:E.
    + left. exists x, inner. auto.
    + right. exists e. reflexivity.
  - right. exists e. apply switchMap_failure.
Qed.

Lemma showTemplateError_shape (stateAtError : State) (e : JsVal) b :
  showTemplateError stateAtError e = Ok b ->
  exists notification, b = of_ [ShowError notification].
Proof.
  unfold showTemplateError. intros H.
  apply bind_Ok in H as (orig & _ & H).
  apply bind_Ok in H as (msg & _ & H).
  inversion H. eauto.
Qed.

Lemma js_or_not_null (a b : JsVal) : nullish b = false -> js_or a b <> JNull.
Proof.
  unfold js_or. intros Hb. destruct (truthy a) eqn:E.
  - intros ->. discriminate.
  - intros ->. discriminate.
Qed.

(** An error that is neither [null] nor [undefined] is translated. *)
Lemma showTemplateError_Ok (stateAtError : State) (e : JsVal) :
  nullish e = false ->
  showTemplateError stateAtError e =
  Ok (of_ [ShowError
             (JObj [("title", JStr "context.errors.template.title");
                    ("message",
                     JStr (messageFor
                             (lookup (js_or (lookup e "originalError") e) "status")
                             (isLoggedIn stateAtError)));
                    ("position", JStr "tc");
                    ("autoDismiss", JNum 5)])]).
Proof.
  intros Hn. unfold showTemplateError.
  rewrite (member_not_nullish _ _ Hn). simpl.
  rewrite errorToMessageId_eq by (now apply js_or_not_null).
  reflexivity.
Qed.

Lemma in_wrapStartStop {A} (s e a : A) handler (stream : Obs A) :
  In a (values (wrapStartStop s e handler stream)) ->
  a = s \/ a = e \/ In a (values stream) \/
  exists err b, ending stream = Failed err /\ handler err = Ok b /\
                In a (values b).
Proof.
  rewrite wrapStartStop_values.
  destruct (ending stream) as [|err] eqn:E.
  - simpl. intros [<-|H]; auto. apply in_app_or in H as [H|[<-|[]]]; auto.
  - destruct (handler err) as [b|e'] eqn:Eh.
    + assert (In a (values b) ->
              exists err0 b0, Failed err = Failed err0 /\ handler err0 = Ok b0 /\
                              In a (values b0)) as Hb by eauto.
      destruct (ending b); simpl; intros [<-|H]; auto;
        apply in_app_or in H as [H|H]; auto 7.
      apply in_app_or in H as [H|[<-|[]]]; auto 7.
    + simpl. intros [<-|H]; auto.
Qed.

(** One invocation of [mergeTemplateEpic]: either the lookup of the
    template throws before anything is emitted, or the wrapped pipeline
    runs. *)
Lemma mergeTemplateEpic_run (api : Collaborators) (st st' : State) (id : JsVal) :
  (exists e, mergeTemplateEpic api st st' (MergeTemplate id) = throwError e /\
             forall t, find (templates st) (idIs id) = Ok t -> nullish t = true) \/
  (exists t src,
      find (templates st) (idIs id) = Ok t /\
      templateData api t id = Ok src /\
      mergeTemplateEpic api st st' (MergeTemplate id) =
      wrapStartStop (SetTemplateLoading id true) (SetTemplateLoading id false)
        (showTemplateError st') (switchMap src (mergeData api st t id))).
Proof.
  unfold mergeTemplateEpic.
  change (ofType MERGE_TEMPLATE (of_ [MergeTemplate id]))
    with (of_ [MergeTemplate id]).
  rewrite switchMap_single. simpl action_id.
  destruct (find (templates st) (idIs id)) as [t|e] eqn:Ef; simpl.
  - destruct (templateData api t id) as [src|e] eqn:Et; simpl.
    + right. exists t, src. auto.
    + left. exists e. split; [reflexivity|].
      intros t0 H0. apply Ok_inj in H0. subst t0.
      eapply templateData_Throw, Et.
  - left. exists e. split; [reflexivity|]. discriminate.
Qed.

Lemma replaceTemplateEpic_run (api : Collaborators) (st st' : State) (id : JsVal) :
  (exists e, replaceTemplateEpic api st st' (ReplaceTemplate id) = throwError e /\
             forall t, find (templates st) (idIs id) = Ok t ->
                       nullish t = true \/ nullish (map st) = true) \/
  (exists t src,
      find (templates st) (idIs id) = Ok t /\
      nullish (map st) = false /\
      templateData api t id = Ok src /\
      replaceTemplateEpic api st st' (ReplaceTemplate id) =
      wrapStartStop (SetTemplateLoading id true) (SetTemplateLoading id false)
        (showTemplateError st')
        (switchMap src
           (replaceData api (lookup (map st) "zoom") (lookup (map st) "center")
              t id))).
Proof.
  unfold replaceTemplateEpic.
  change (ofType REPLACE_TEMPLATE (of_ [ReplaceTemplate id]))
    with (of_ [ReplaceTemplate id]).
  rewrite switchMap_single. simpl action_id.
  destruct (find (templates st) (idIs id)) as [t|e] eqn:Ef; simpl.
  - unfold member. destruct (nullish (map st)) eqn:En; simpl.
    + left. eexists. split; [reflexivity|]. auto.
    + destruct (templateData api t id) as [src|e] eqn:Et; simpl.
      * right. exists t, src. auto.
      * left. exists e. split; [reflexivity|].
        intros t0 H0. apply Ok_inj in H0. subst t0.
        left. eapply templateData_Throw, Et.
  - left. exists e. split; [reflexivity|]. discriminate.
Qed.

Lemma in_storeData (t id d : JsVal) (a : Action) :
  In a (storeData t id d) ->
  a = SetTemplateData id d /\ truthy (lookup t "dataLoaded") = false.
Proof.
  unfold storeData. destruct (truthy (lookup t "dataLoaded")); simpl.
  - contradiction.
  - intros [<-|[]]. auto.
Qed.

(** What the merge pipeline does with the resolved data. *)
Lemma mergeData_shape (api : Collaborators) (st : State) (t id d : JsVal) inner :
  mergeData api st t id d = Ok inner ->
  fetches (effects inner) = [] /\
  forall a, In a (values inner) ->
    a = SetTemplateData id d \/
    exists cur config merged,
      (hasMap d || isString d)%bool = true /\
      saveMapConfiguration api (map st) (layers st) (groups st)
        (backgrounds st) (textSearchConfig st) (additionalOptions st) = Ok cur /\
      In config (values (mergeConfigSource api d)) /\
      mergeMapConfigs api cur config = Ok merged /\
      a = ConfigureMap (JObj (omit merged "widgetsConfig")) JNull JUndefined.
Proof.
  unfold mergeData. destruct (hasMap d || isString d)%bool eqn:Ec.
  - intros H. apply bind_Ok in H as (cur & Hcur & H).
    apply Ok_inj in H. subst inner.
    destruct (switchMap_single_shot (mergeConfigSource api d)
                (fun config =>
                   merged <- mergeMapConfigs api cur config ;;
                   Ok (of_ (storeData t id d ++
                            [ConfigureMap
                               (cloneDeep (JObj (omit merged "widgetsConfig")))
                               JNull JUndefined])))
                (mergeConfigSource_single_shot api d))
      as [(config & in2 & Hv & Hp & ->)|(e & ->)]; cbn [values effects].
    + apply bind_Ok in Hp as (merged & Hm & Hp).
      apply Ok_inj in Hp. subst in2. cbn [values effects of_].
      rewrite fetches_app, mergeConfigSource_fetches. split; [reflexivity|].
      intros a Ha. apply in_app_or in Ha as [Ha|[<-|[]]].
      * left. now apply in_storeData in Ha.
      * right. exists cur, config, merged. rewrite Hv, cloneDeep_id.
        cbn [In]. auto 6.
    + split; [apply mergeConfigSource_fetches | contradiction].
  - intros H. apply Ok_inj in H. subst inner.
    destruct (negb (truthy (lookup t "dataLoaded"))); simpl.
    + split; [reflexivity|]. intros a [<-|[]]. now left.
    + split; [reflexivity|]. contradiction.
Qed.

Lemma in_switchMap_single_shot {A B} (src : Obs A) (project : A -> Result (Obs B)) b :
  SingleShot src -> In b (values (switchMap src project)) ->
  exists x inner, values src = [x] /\ project x = Ok inner /\ In b (values inner).
Proof.
  intros Hs Hin.
  destruct (switchMap_single_shot src project Hs)
    as [(x & inner & Hv & Hp & Heq)|(e & Heq)]; rewrite Heq in Hin; simpl in Hin.
  - eauto.
  - contradiction.
Qed.

Lemma fetches_switchMap_single_shot {A B} (src : Obs A)
  (project : A -> Result (Obs B)) :
  SingleShot src ->
  (forall x inner, project x = Ok inner -> fetches (effects inner) = []) ->
  fetches (effects (switchMap src project)) = fetches (effects src).
Proof.
  intros Hs Hp.
  destruct (switchMap_single_shot src project Hs)
    as [(x & inner & Hv & Hpx & ->)|(e & ->)]; simpl.
  - rewrite fetches_app, (Hp _ _ Hpx). apply app_nil_r.
  - reflexivity.
Qed.

Lemma fetches_wrapStartStop (s e : Action) (st' : State) (stream : Obs Action) :
  fetches (effects (wrapStartStop s e (showTemplateError st') stream)) =
  fetches (effects stream).
Proof.
  rewrite wrapStartStop_effects. destruct (ending stream) as [|err]; auto.
  destruct (showTemplateError st' err) as [b|e'] eqn:E; auto.
  apply showTemplateError_shape in E as [n ->]. simpl. now rewrite app_nil_r.
Qed.

Lemma zoomToExtentOf_Ok (cmap : JsVal) :
  nullish cmap = false ->
  zoomToExtentOf cmap =
  Ok (if truthy (lookup cmap "zoom") then JBool false
      else js_or (lookup cmap "bbox") (lookup cmap "maxExtent")).
Proof.
  intros Hn. unfold zoomToExtentOf, js_or.
  rewrite (member_not_nullish _ _ Hn). simpl.
  destruct (truthy (lookup cmap "zoom")); [reflexivity|].
  rewrite (member_not_nullish _ _ Hn). simpl.
  destruct (truthy (lookup cmap "bbox")); [reflexivity|].
  apply member_not_nullish, Hn.
Qed.

Lemma replacedConfig_Ok (zoom center config newConfig : JsVal) :
  replacedConfig zoom center config = Ok newConfig ->
  nullish (lookup config "map") = false /\
  newConfig =
  JObj (obj_set "map"
          (JObj (obj_set "center"
                   (js_or (lookup (lookup config "map") "center") center)
                (obj_set "zoom"
                   (js_or (lookup (lookup config "map") "zoom") zoom)
                (own_props (lookup config "map")))))
          (own_props config)).
Proof.
  unfold replacedConfig. intros H.
  apply bind_Ok in H as (cmap & Hc & H). apply member_Ok in Hc as [_ ->].
  apply bind_Ok in H as (czoom & Hz & H). apply member_Ok in Hz as [Hn ->].
  apply bind_Ok in H as (ccenter & Hce & H). apply member_Ok in Hce as [_ ->].
  apply Ok_inj in H. auto.
Qed.

(** What the replace pipeline does with the resolved configuration. *)
Lemma replaceConfig_shape (zoom center t id d config : JsVal) inner :
  replaceConfig zoom center t id d config = Ok inner ->
  effects inner = [] /\
  forall a, In a (values inner) ->
    a = SetTemplateData id d \/
    (truthy config = true /\
     nullish (lookup config "map") = false /\
     a = ConfigureMap
           (JObj (obj_set "map"
                    (JObj (obj_set "center"
                             (js_or (lookup (lookup config "map") "center") center)
                          (obj_set "zoom"
                             (js_or (lookup (lookup config "map") "zoom") zoom)
                          (own_props (lookup config "map")))))
                    (own_props config)))
           JNull
           (if truthy (lookup (lookup config "map") "zoom") then JBool false
            else js_or (lookup (lookup config "map") "bbox")
                       (lookup (lookup config "map") "maxExtent"))).
Proof.
  unfold replaceConfig. intros H.
  apply bind_Ok in H as (configure & Hc & H).
  apply Ok_inj in H. subst inner. cbn [values effects of_].
  split; [reflexivity|]. intros a Ha.
  apply in_app_or in Ha as [Ha|Ha].
  - left. now apply in_storeData in Ha.
  - right. destruct (truthy config) eqn:Et.
    + apply bind_Ok in Hc as (newConfig & Hnew & Hc).
      apply replacedConfig_Ok in Hnew as [Hn ->].
      apply bind_Ok in Hc as (cmap & Hcm & Hc).
      apply member_Ok in Hcm as [_ ->].
      rewrite (zoomToExtentOf_Ok _ Hn) in Hc. cbn [bind] in Hc.
      apply Ok_inj in Hc. subst configure.
      rewrite cloneDeep_id in Ha. destruct Ha as [<-|[]]. auto.
    + apply Ok_inj in Hc. subst configure. contradiction.
Qed.

Lemma replaceData_shape (api : Collaborators) (zoom center t id d : JsVal) inner :
  replaceData api zoom center t id d = Ok inner ->
  fetches (effects inner) = [] /\
  forall a, In a (values inner) ->
    a = SetTemplateData id d \/
    exists config,
      values (replaceConfigSource api d) = [config] /\
      truthy config = true /\
      nullish (lookup config "map") = false /\
      a = ConfigureMap
            (JObj (obj_set "map"
                     (JObj (obj_set "center"
                              (js_or (lookup (lookup config "map") "center") center)
                           (obj_set "zoom"
                              (js_or (lookup (lookup config "map") "zoom") zoom)
                           (own_props (lookup config "map")))))
                     (own_props config)))
            JNull
            (if truthy (lookup (lookup config "map") "zoom") then JBool false
             else js_or (lookup (lookup config "map") "bbox")
                        (lookup (lookup config "map") "maxExtent")).
Proof.
  unfold replaceData. intros H. apply Ok_inj in H. subst inner. split.
  - rewrite fetches_switchMap_single_shot.
    + apply replaceConfigSource_fetches.
    + apply replaceConfigSource_single_shot.
    + intros x inner Hx. apply replaceConfig_shape in Hx as [-> _]. reflexivity.
  - intros a Ha.
    apply in_switchMap_single_shot in Ha
      as (config & inner & Hv & Hp & Ha);
      [|apply replaceConfigSource_single_shot].
    apply replaceConfig_shape in Hp as [_ Hp].
    destruct (Hp a Ha) as [->|(Ht & Hn & ->)]; [now left|].
    right. exists config. auto.
Qed.

(** With neither a point nor a center in [props], [x] and [y] default to
    the empty string and the literal on the left of [||] is itself
    [{lat: "", lon: ""}]: the result has the content of the right
    operand without being it. *)
Lemma getCoordinates_without_center (correctLng : JsVal -> JsVal) :
  SharePanel.getCoordinates correctLng (JObj []) =
  Ok (SharePanel.centerCoordinates (JStr "") (JStr "")).
Proof. reflexivity. Qed.

(** *** Template resolution *)

Lemma defer_fetches (id : JsVal) (r : Result JsVal) :
  fetches (effects (defer (GetData id) r)) = [id].
Proof. destruct r; reflexivity. Qed.

Lemma templateData_fetches (api : Collaborators) (t id : JsVal) src :
  templateData api t id = Ok src ->
  fetches (effects src) =
  if truthy (lookup t "dataLoaded") then [] else [id].
Proof.
  intros H. apply templateData_cases in H as [_ [[-> ->]|[-> ->]]].
  - reflexivity.
  - apply defer_fetches.
Qed.

Lemma mergeTemplateEpic_fetches (api : Collaborators) (st st' : State) (id t : JsVal) :
  find (templates st) (idIs id) = Ok t ->
  truthy (lookup t "dataLoaded") = true ->
  fetches (effects (mergeTemplateEpic api st st' (MergeTemplate id))) = [].
Proof.
  intros Hf Hl.
  destruct (mergeTemplateEpic_run api st st' id)
    as [(e & -> & _)|(t' & src & Hf' & Ht & ->)]; [reflexivity|].
  rewrite Hf in Hf'. apply Ok_inj in Hf'. subst t'.
  rewrite fetches_wrapStartStop, fetches_switchMap_single_shot.
  - rewrite (templateData_fetches _ _ _ _ Ht), Hl. reflexivity.
  - eapply templateData_single_shot, Ht.
  - intros x inner Hx. now apply mergeData_shape in Hx.
Qed.

Lemma replaceTemplateEpic_fetches (api : Collaborators) (st st' : State) (id t : JsVal) :
  find (templates st) (idIs id) = Ok t ->
  truthy (lookup t "dataLoaded") = true ->
  fetches (effects (replaceTemplateEpic api st st' (ReplaceTemplate id))) = [].
Proof.
  intros Hf Hl.
  destruct (replaceTemplateEpic_run api st st' id)
    as [(e & -> & _)|(t' & src & Hf' & Hm & Ht & ->)]; [reflexivity|].
  rewrite Hf in Hf'. apply Ok_inj in Hf'. subst t'.
  rewrite fetches_wrapStartStop, fetches_switchMap_single_shot.
  - rewrite (templateData_fetches _ _ _ _ Ht), Hl. reflexivity.
  - eapply templateData_single_shot, Ht.
  - intros x inner Hx. now apply replaceData_shape in Hx.
Qed.

(** C1. For a template found in the cache with [dataLoaded = true], the
    source of the pipeline is the cached [data], emitted at once, and
    neither [mergeTemplateEpic] nor [replaceTemplateEpic] calls
    [Api.getData]; a run that does call it found [dataLoaded] falsy. *)
Theorem cached_template_is_not_fetched
  (api : Collaborators) (st st' : State) (id t : JsVal) :
  find (templates st) (idIs id) = Ok t ->
  (lookup t "dataLoaded" = JBool true ->
   templateData api t id = Ok (of_ [lookup t "data"]) /\
   fetches (effects (mergeTemplateEpic api st st' (MergeTemplate id))) = [] /\
   fetches (effects (replaceTemplateEpic api st st' (ReplaceTemplate id))) = []) /\
  (fetches (effects (mergeTemplateEpic api st st' (MergeTemplate id))) <> [] \/
   fetches (effects (replaceTemplateEpic api st st' (ReplaceTemplate id))) <> [] ->
   truthy (lookup t "dataLoaded") = false).
Proof.
  intros Hf. split.
  - intros Hl. assert (truthy (lookup t "dataLoaded") = true) as Ht
      by (now rewrite Hl).
    split; [|split].
    + unfold templateData, member.
      destruct t; try discriminate Hl; cbn [nullish bind]; now rewrite Ht.
    + now apply mergeTemplateEpic_fetches with (t := t).
    + now apply replaceTemplateEpic_fetches with (t := t).
  - intros H. destruct (truthy (lookup t "dataLoaded")) eqn:Ht; [|reflexivity].
    exfalso. destruct H as [H|H]; apply H.
    + now apply mergeTemplateEpic_fetches with (t := t).
    + now apply replaceTemplateEpic_fetches with (t := t).
Qed.

Lemma cached_template_is_not_fetched_witness :
  find (templates Samples.state) (idIs (JNum 1)) = Ok Samples.cachedTemplate /\
  lookup Samples.cachedTemplate "dataLoaded" = JBool true /\
  fetches (effects (mergeTemplateEpic Samples.api Samples.state Samples.state
                      (MergeTemplate (JNum 1)))) = [] /\
  fetches (effects (replaceTemplateEpic Samples.api Samples.state Samples.state
                      (ReplaceTemplate (JNum 1)))) = [].
Proof.
  split; [reflexivity|]. split; [reflexivity|].
  apply (cached_template_is_not_fetched Samples.api Samples.state Samples.state
           (JNum 1) Samples.cachedTemplate); reflexivity.
Defined.

(** *** Merge *)

Lemma not_in_showTemplateError (st' : State) (err : JsVal) b (a : Action) :
  showTemplateError st' err = Ok b -> In a (values b) ->
  exists notification, a = ShowError notification.
Proof.
  intros H Ha. apply showTemplateError_shape in H as [n ->].
  destruct Ha as [<-|[]]. eauto.
Qed.




(** A merge without a map. When the resolved data is not a string and
    fails the test [isObject(data) && data.map !== undefined] ([null], a
    number, a boolean, an object without [map]; not an array, which
    inherits a [map]), the invocation emits the loading bracket (and
    the data to store, if it was fetched) and completes: no
    [ConfigureMap], no error notification. *)
Theorem merge_without_map_changes_nothing
  (api : Collaborators) (st st' : State) (id t data : JsVal) (src : Obs JsVal) :
  find (templates st) (idIs id) = Ok t ->
  templateData api t id = Ok src ->
  values src = [data] ->
  isString data = false ->
  hasMap data = false ->
  values (mergeTemplateEpic api st st' (MergeTemplate id)) =
    SetTemplateLoading id true :: storeData t id data ++
    [SetTemplateLoading id false] /\
  ending (mergeTemplateEpic api st st' (MergeTemplate id)) = Completed /\
  (forall cfg mapId flag,
      ~ In (ConfigureMap cfg mapId flag)
           (values (mergeTemplateEpic api st st' (MergeTemplate id)))) /\
  (forall notification,
      ~ In (ShowError notification)
           (values (mergeTemplateEpic api st st' (MergeTemplate id)))).
Proof.
  intros Hf Ht Hv Hs Hm.
  destruct (mergeTemplateEpic_run api st st' id)
    as [(e & _ & Hn)|(t' & src' & Hf' & Ht' & ->)].
  - apply Hn in Hf. apply templateData_cases in Ht as [Ht _]. congruence.
  - rewrite Hf in Hf'. apply Ok_inj in Hf'. subst t'.
    rewrite Ht in Ht'. apply Ok_inj in Ht'. subst src'.
    assert (switchMap src (mergeData api st t id) =
            mkObs (effects src) (storeData t id data) Completed) as Hsw.
    { destruct (templateData_single_shot _ _ _ _ Ht) as [effs x|effs e];
        simpl in Hv; [|discriminate].
      injection Hv as ->. rewrite switchMap_value.
      unfold mergeData, storeData. rewrite Hs, Hm. cbn [orb].
      destruct (negb (truthy (lookup t "dataLoaded"))); simpl;
        now rewrite app_nil_r. }
    assert (values (wrapStartStop (SetTemplateLoading id true)
                      (SetTemplateLoading id false) (showTemplateError st')
                      (switchMap src (mergeData api st t id))) =
            SetTemplateLoading id true :: storeData t id data ++
            [SetTemplateLoading id false]) as Hvals.
    { rewrite wrapStartStop_values, Hsw. reflexivity. }
    rewrite Hvals. split; [reflexivity|]. split.
    + rewrite wrapStartStop_ending, Hsw. reflexivity.
    + split; intros; intros [H|H]; try discriminate;
        apply in_app_or in H as [H|[H|[]]]; try discriminate;
        apply in_storeData in H as [H _]; discriminate.
Qed.

Lemma merge_without_map_changes_nothing_witness :
  values (mergeTemplateEpic Samples.api Samples.state Samples.state
            (MergeTemplate (JNum 3))) =
  [SetTemplateLoading (JNum 3) true; SetTemplateLoading (JNum 3) false] /\
  ending (mergeTemplateEpic Samples.api Samples.state Samples.state
            (MergeTemplate (JNum 3))) = Completed.
Proof.
  destruct (merge_without_map_changes_nothing Samples.api Samples.state
              Samples.state (JNum 3) Samples.noMapTemplate
              (JObj [("layers", JArr [])])
              (of_ [JObj [("layers", JArr [])]])
              eq_refl eq_refl eq_refl eq_refl eq_refl) as (Hv & He & _).
  split; [exact Hv | exact He].
Defined.

(** *** Replace *)

(** Every [ConfigureMap] of a replace comes from a truthy resolved
    configuration whose [map] is neither [null] nor [undefined]. *)
Lemma replaceTemplateEpic_configure
  (api : Collaborators) (st st' : State) (id cfg mapId flag : JsVal) :
  In (ConfigureMap cfg mapId flag)
     (values (replaceTemplateEpic api st st' (ReplaceTemplate id))) ->
  exists t src data config,
    find (templates st) (idIs id) = Ok t /\
    templateData api t id = Ok src /\
    values src = [data] /\
    values (replaceConfigSource api data) = [config] /\
    truthy config = true /\
    nullish (lookup config "map") = false /\
    cfg = JObj (obj_set "map"
                  (JObj (obj_set "center"
                           (js_or (lookup (lookup config "map") "center")
                                  (lookup (map st) "center"))
                        (obj_set "zoom"
                           (js_or (lookup (lookup config "map") "zoom")
                                  (lookup (map st) "zoom"))
                        (own_props (lookup config "map")))))
                  (own_props config)) /\
    mapId = JNull /\
    flag = (if truthy (lookup (lookup config "map") "zoom") then JBool false
            else js_or (lookup (lookup config "map") "bbox")
                       (lookup (lookup config "map") "maxExtent")).
Proof.
  intros Hin.
  destruct (replaceTemplateEpic_run api st st' id)
    as [(e & Hr & _)|(t & src & Hf & Hmap & Ht & Hr)]; rewrite Hr in Hin.
  - contradiction.
  - apply in_wrapStartStop in Hin as [H|[H|[H|(err & b & _ & Hb & H)]]];
      try discriminate.
    + apply in_switchMap_single_shot in H as (data & inner & Hv & Hp & H);
        [|eapply templateData_single_shot, Ht].
      apply replaceData_shape in Hp as [_ Hp].
      destruct (Hp _ H) as [Hd|(config & Hc & Htr & Hn & Ha)];
        [discriminate|].
      injection Ha as -> -> ->.
      exists t, src, data, config. auto 10.
    + destruct (not_in_showTemplateError _ _ _ _ Hb H). discriminate.
Qed.

(** The shape of what a replace dispatches. Every configuration that
    [replaceTemplateEpic] dispatches has the own fields of the resolved
    configuration, and its [map] has the own fields of that
    configuration's [map], except [zoom] and [center], which are
    [config.map.zoom || zoom] and [config.map.center || center]. *)
Lemma replace_dispatches_template_config
  (api : Collaborators) (st st' : State) (id cfg mapId flag : JsVal) :
  In (ConfigureMap cfg mapId flag)
     (values (replaceTemplateEpic api st st' (ReplaceTemplate id))) ->
  exists t src data config newMap,
    find (templates st) (idIs id) = Ok t /\
    templateData api t id = Ok src /\
    values src = [data] /\
    values (replaceConfigSource api data) = [config] /\
    nullish (lookup config "map") = false /\
    (forall k, k <> "map" ->
       assoc k (own_props cfg) = assoc k (own_props config)) /\
    assoc "map" (own_props cfg) = Some (JObj newMap) /\
    assoc "zoom" newMap =
      Some (js_or (lookup (lookup config "map") "zoom") (lookup (map st) "zoom")) /\
    assoc "center" newMap =
      Some (js_or (lookup (lookup config "map") "center")
                  (lookup (map st) "center")) /\
    (forall k, k <> "zoom" -> k <> "center" ->
       assoc k newMap = assoc k (own_props (lookup config "map"))).
Proof.
  intros Hin.
  apply replaceTemplateEpic_configure in Hin
    as (t & src & data & config & Hf & Ht & Hv & Hc & _ & Hn & -> & _ & _).
  exists t, src, data, config.
  eexists. repeat (split; [eassumption|]). cbn [own_props].
  split; [|split; [|split; [|split]]].
  - intros k Hk. apply assoc_obj_set_other. congruence.
  - apply assoc_obj_set_same.
  - rewrite assoc_obj_set_other by discriminate. apply assoc_obj_set_same.
  - apply assoc_obj_set_same.
  - intros k Hz Hc'. now rewrite !assoc_obj_set_other by congruence.
Qed.

(** The third argument of every [ConfigureMap] of a replace, by
    truthiness: [!config.map.zoom && (config.map.bbox ||
    config.map.maxExtent)]. *)
Lemma replace_zoom_to_extent
  (api : Collaborators) (st st' : State) (id cfg mapId flag : JsVal) :
  In (ConfigureMap cfg mapId flag)
     (values (replaceTemplateEpic api st st' (ReplaceTemplate id))) ->
  exists t src data config,
    find (templates st) (idIs id) = Ok t /\
    templateData api t id = Ok src /\
    values src = [data] /\
    values (replaceConfigSource api data) = [config] /\
    (truthy flag = true <->
     truthy (lookup (lookup config "map") "zoom") = false /\
     (truthy (lookup (lookup config "map") "bbox") = true \/
      truthy (lookup (lookup config "map") "maxExtent") = true)).
Proof.
  intros Hin.
  apply replaceTemplateEpic_configure in Hin
    as (t & src & data & config & Hf & Ht & Hv & Hc & _ & _ & _ & _ & ->).
  exists t, src, data, config. repeat (split; [assumption|]).
  unfold js_or.
  destruct (truthy (lookup (lookup config "map") "zoom")); simpl.
  - split; [discriminate|]. intros [H _]. discriminate.
  - destruct (truthy (lookup (lookup config "map") "bbox")) eqn:Eb.
    + rewrite Eb. split; auto.
    + split; auto. intros [_ [H|H]]; [discriminate|assumption].
Qed.

Lemma bind_Throw {A B} (c : Result A) (k : A -> Result B) (e : JsVal) :
  bind c k = Throw e -> c = Throw e \/ exists a, c = Ok a /\ k a = Throw e.
Proof. destruct c as [a|e']; simpl; intros H; [eauto | left; congruence]. Qed.

Lemma member_Throw (v : JsVal) (k : string) (e : JsVal) :
  member v k = Throw e -> nullish e = false.
Proof.
  unfold member. destruct (nullish v); intros H; [|discriminate].
  injection H as <-. reflexivity.
Qed.

Lemma switchMap_failed_single_shot {A B} (src : Obs A)
  (project : A -> Result (Obs B)) (e : JsVal) :
  SingleShot src ->
  ending (switchMap src project) = Failed e ->
  ending src = Failed e \/
  exists x, values src = [x] /\
            (project x = Throw e \/
             exists inner, project x = Ok inner /\ ending inner = Failed e).
Proof.
  intros [effs x|effs e0].
  - rewrite switchMap_value. destruct (project x) as [inner|e1] eqn:E; simpl.
    + intros H. right. exists x. eauto.
    + intros H. injection H as ->. right. exists x. auto.
  - rewrite switchMap_failure. simpl. auto.
Qed.

Lemma templateData_failed (api : Collaborators) (t id e : JsVal) src :
  ThrowsErrors api ->
  templateData api t id = Ok src -> ending src = Failed e -> nullish e = false.
Proof.
  intros (Hg & _) H. apply templateData_cases in H as [_ [[_ ->]|[_ ->]]].
  - discriminate.
  - destruct (getData api id) as [d|e'] eqn:E; simpl; [discriminate|].
    intros H. injection H as ->. eapply Hg, E.
Qed.

Lemma mergeData_failed (api : Collaborators) (st : State) (t id d e : JsVal) :
  ThrowsErrors api ->
  (mergeData api st t id d = Throw e \/
   exists inner, mergeData api st t id d = Ok inner /\ ending inner = Failed e) ->
  nullish e = false.
Proof.
  intros (_ & Hc & Hs & Hm). unfold mergeData.
  destruct (hasMap d || isString d)%bool.
  - intros [H|(inner & H & He)].
    + apply bind_Throw in H as [H|(cur & _ & H)]; [eapply Hs, H | discriminate].
    + apply bind_Ok in H as (cur & _ & H). apply Ok_inj in H. subst inner.
      apply switchMap_failed_single_shot in He
        as [He|(config & _ & [He|(in2 & Hp & He)])];
        [| | |apply mergeConfigSource_single_shot].
      * unfold mergeConfigSource in He. destruct (isString d); [|discriminate].
        destruct (toMapConfig api d (JBool true)) as [c|e'] eqn:E; simpl in He;
          [discriminate|].
        injection He as ->. eapply Hc, E.
      * apply bind_Throw in He as [He|(merged & _ & He)];
          [eapply Hm, He | discriminate].
      * apply bind_Ok in Hp as (merged & _ & Hp). apply Ok_inj in Hp.
        subst in2. discriminate.
  - intros [H|(inner & H & He)]; [discriminate|].
    apply Ok_inj in H. subst inner.
    destruct (negb (truthy (lookup t "dataLoaded"))); discriminate.
Qed.

Lemma replaceConfig_Throw (zoom center t id d config e : JsVal) :
  replaceConfig zoom center t id d config = Throw e -> nullish e = false.
Proof.
  unfold replaceConfig, replacedConfig, zoomToExtentOf. intros H.
  repeat match goal with
         | H : bind _ _ = Throw _ |- _ =>
             apply bind_Throw in H as [H|(? & _ & H)]
         | H : member _ _ = Throw _ |- _ => exact (member_Throw _ _ _ H)
         | H : Ok _ = Throw _ |- _ => discriminate H
         | H : (if ?c then _ else _) = Throw _ |- _ => destruct c
         end.
Qed.

Lemma replaceData_failed (api : Collaborators) (zoom center t id d e : JsVal) :
  ThrowsErrors api ->
  (replaceData api zoom center t id d = Throw e \/
   exists inner, replaceData api zoom center t id d = Ok inner /\
                 ending inner = Failed e) ->
  nullish e = false.
Proof.
  intros (_ & Hc & _). unfold replaceData.
  intros [H|(inner & H & He)]; [discriminate|].
  apply Ok_inj in H. subst inner.
  apply switchMap_failed_single_shot in He
    as [He|(config & _ & [He|(in2 & Hp & He)])];
    [| | |apply replaceConfigSource_single_shot].
  - unfold replaceConfigSource in He. destruct (isString d); [|discriminate].
    destruct (toMapConfig api d JUndefined) as [c|e'] eqn:E; simpl in He;
      [discriminate|].
    injection He as ->. eapply Hc, E.
  - eapply replaceConfig_Throw, He.
  - unfold replaceConfig in Hp. apply bind_Ok in Hp as (configure & _ & Hp).
    apply Ok_inj in Hp. subst in2. discriminate.
Qed.

(** The wrapped pipeline of a template that was found: the loading
    bracket opens and closes the run, and every failure in between is
    turned into one notification. *)
Lemma wrapped_loading_bracket (st' : State) (id : JsVal) (stream : Obs Action) :
  (forall e, ending stream = Failed e -> nullish e = false) ->
  forallb (fun a => negb (isLoading a)) (values stream) = true ->
  let run := wrapStartStop (SetTemplateLoading id true)
               (SetTemplateLoading id false) (showTemplateError st') stream in
  ending run = Completed /\
  exists middle,
    values run =
      SetTemplateLoading id true :: middle ++ [SetTemplateLoading id false] /\
    forallb (fun a => negb (isLoading a)) middle = true /\
    (forall e, ending stream = Failed e ->
       exists notification, middle = values stream ++ [ShowError notification]).
Proof.
  intros Hfail Hvals run. subst run.
  rewrite wrapStartStop_ending, wrapStartStop_values.
  destruct (ending stream) as [|e] eqn:Ee.
  - split; [reflexivity|]. exists (values stream).
    split; [reflexivity|]. split; [assumption|]. discriminate.
  - rewrite (showTemplateError_Ok st' e (Hfail e eq_refl)). cbn [ending of_ values].
    split; [reflexivity|]. eexists. split.
    + rewrite app_assoc. reflexivity.
    + split.
      * rewrite forallb_app, Hvals. reflexivity.
      * intros e0 _. eauto.
Qed.

(** When the template is found (and is an object), a merge runs inside
    the loading bracket and completes. *)
Lemma mergeTemplateEpic_bracket
  (api : Collaborators) (st st' : State) (id t : JsVal) :
  ThrowsErrors api ->
  find (templates st) (idIs id) = Ok t ->
  nullish t = false ->
  ending (mergeTemplateEpic api st st' (MergeTemplate id)) = Completed /\
  exists middle,
    values (mergeTemplateEpic api st st' (MergeTemplate id)) =
      SetTemplateLoading id true :: middle ++ [SetTemplateLoading id false] /\
    forallb (fun a => negb (isLoading a)) middle = true.
Proof.
  intros Hapi Hf Hn.
  destruct (mergeTemplateEpic_run api st st' id)
    as [(e & _ & Hnull)|(t' & src & Hf' & Ht & ->)].
  - apply Hnull in Hf. congruence.
  - destruct (wrapped_loading_bracket st' id
                (switchMap src (mergeData api st t' id)))
      as (He & middle & Hv & Hm & _).
    + intros e He.
      apply switchMap_failed_single_shot in He as [He|(x & _ & He)];
        [| |eapply templateData_single_shot, Ht].
      * eapply templateData_failed; eassumption.
      * eapply mergeData_failed; eassumption.
    + apply forallb_forall. intros a Ha.
      apply in_switchMap_single_shot in Ha as (d & inner & _ & Hp & Ha);
        [|eapply templateData_single_shot, Ht].
      apply mergeData_shape in Hp as [_ Hp].
      destruct (Hp a Ha) as [->|(? & ? & ? & _ & _ & _ & _ & ->)]; reflexivity.
    + split; [exact He|]. exists middle. auto.
Qed.

(** The same for a replace, when moreover the current map is an object. *)
Lemma replaceTemplateEpic_bracket
  (api : Collaborators) (st st' : State) (id t : JsVal) :
  ThrowsErrors api ->
  find (templates st) (idIs id) = Ok t ->
  nullish t = false ->
  nullish (map st) = false ->
  ending (replaceTemplateEpic api st st' (ReplaceTemplate id)) = Completed /\
  exists middle,
    values (replaceTemplateEpic api st st' (ReplaceTemplate id)) =
      SetTemplateLoading id true :: middle ++ [SetTemplateLoading id false] /\
    forallb (fun a => negb (isLoading a)) middle = true.
Proof.
  intros Hapi Hf Hn Hmap.
  destruct (replaceTemplateEpic_run api st st' id)
    as [(e & _ & Hnull)|(t' & src & Hf' & _ & Ht & ->)].
  - apply Hnull in Hf as [Hf|Hf]; congruence.
  - destruct (wrapped_loading_bracket st' id
                (switchMap src
                   (replaceData api (lookup (map st) "zoom")
                      (lookup (map st) "center") t' id)))
      as (He & middle & Hv & Hm & _).
    + intros e He.
      apply switchMap_failed_single_shot in He as [He|(x & _ & He)];
        [| |eapply templateData_single_shot, Ht].
      * eapply templateData_failed; eassumption.
      * eapply replaceData_failed; eassumption.
    + apply forallb_forall. intros a Ha.
      apply in_switchMap_single_shot in Ha as (d & inner & _ & Hp & Ha);
        [|eapply templateData_single_shot, Ht].
      apply replaceData_shape in Hp as [_ Hp].
      destruct (Hp a Ha) as [->|(? & _ & _ & _ & ->)]; reflexivity.
    + split; [exact He|]. exists middle. auto.
Qed.

(** C7, at an id that matches no template. [find] returns [undefined],
    reading [template.dataLoaded] throws before [wrapStartStop] is
    reached, and neither epic emits anything: no
    [SetTemplateLoading(id, true)] and no [SetTemplateLoading(id, false)]. *)
Theorem unknown_template_emits_nothing
  (api : Collaborators) (st st' : State) (id : JsVal) :
  find (templates st) (idIs id) = Ok JUndefined ->
  values (mergeTemplateEpic api st st' (MergeTemplate id)) = [] /\
  values (replaceTemplateEpic api st st' (ReplaceTemplate id)) = [].
Proof.
  intros Hf. split.
  - destruct (mergeTemplateEpic_run api st st' id)
      as [(e & -> & _)|(t & src & Hf' & Ht & _)]; [reflexivity|].
    rewrite Hf in Hf'. apply Ok_inj in Hf'. subst t. discriminate.
  - destruct (replaceTemplateEpic_run api st st' id)
      as [(e & -> & _)|(t & src & Hf' & _ & Ht & _)]; [reflexivity|].
    rewrite Hf in Hf'. apply Ok_inj in Hf'. subst t. discriminate.
Qed.

Lemma unknown_template_emits_nothing_witness :
  find (templates Samples.state) (idIs (JNum 9)) = Ok JUndefined /\
  values (mergeTemplateEpic Samples.api Samples.state Samples.state
            (MergeTemplate (JNum 9))) = [] /\
  values (replaceTemplateEpic Samples.api Samples.state Samples.state
            (ReplaceTemplate (JNum 9))) = [].
Proof.
  split; [reflexivity|].
  exact (unknown_template_emits_nothing Samples.api Samples.state
           Samples.state (JNum 9) eq_refl).
Defined.

(** C8, at an id that matches no template. The TypeError of reading
    [template.dataLoaded] is not handled: both epics end with an error,
    and no notification was shown. *)
Theorem unknown_template_fails_the_epic
  (api : Collaborators) (st st' : State) (id : JsVal) :
  find (templates st) (idIs id) = Ok JUndefined ->
  ending (mergeTemplateEpic api st st' (MergeTemplate id)) =
    Failed (TypeError "Cannot read property 'dataLoaded'") /\
  (exists e, ending (replaceTemplateEpic api st st' (ReplaceTemplate id)) =
             Failed e) /\
  (forall notification,
      ~ In (ShowError notification)
           (values (mergeTemplateEpic api st st' (MergeTemplate id))) /\
      ~ In (ShowError notification)
           (values (replaceTemplateEpic api st st' (ReplaceTemplate id)))).
Proof.
  intros Hf. split; [|split].
  - unfold mergeTemplateEpic.
    change (ofType MERGE_TEMPLATE (of_ [MergeTemplate id]))
      with (of_ [MergeTemplate id]).
    rewrite switchMap_single. cbn [action_id]. rewrite Hf. reflexivity.
  - destruct (replaceTemplateEpic_run api st st' id)
      as [(e & -> & _)|(t & src & Hf' & _ & Ht & _)]; [eexists; reflexivity|].
    rewrite Hf in Hf'. apply Ok_inj in Hf'. subst t. discriminate.
  - intros n.
    destruct (mergeTemplateEpic_run api st st' id)
      as [(e & -> & _)|(t & src & Hf' & Ht & _)];
      [|rewrite Hf in Hf'; apply Ok_inj in Hf'; subst t; discriminate].
    destruct (replaceTemplateEpic_run api st st' id)
      as [(e' & -> & _)|(t & src & Hf' & _ & Ht & _)];
      [|rewrite Hf in Hf'; apply Ok_inj in Hf'; subst t; discriminate].
    split; intros [].
Qed.

Lemma unknown_template_fails_the_epic_witness :
  find (templates Samples.state) (idIs (JNum 9)) = Ok JUndefined /\
  ending (mergeTemplateEpic Samples.api Samples.state Samples.state
            (MergeTemplate (JNum 9))) =
    Failed (TypeError "Cannot read property 'dataLoaded'").
Proof.
  split; [reflexivity|].
  exact (proj1 (unknown_template_fails_the_epic Samples.api Samples.state
                  Samples.state (JNum 9) eq_refl)).
Defined.

(** *** Opening the templates panel *)

Lemma newTemplate_flags (resource t : JsVal) :
  newTemplate resource = Ok t ->
  lookup t "dataLoaded" = JBool false /\ lookup t "loading" = JBool false.
Proof.
  unfold newTemplate. intros H. apply bind_Ok in H as (thumbnail & _ & H).
  apply Ok_inj in H. subst t. rewrite !lookup_JObj. split.
  - rewrite assoc_obj_set_other by discriminate.
    now rewrite assoc_obj_set_same.
  - now rewrite assoc_obj_set_same.
Qed.

Lemma array_or_singleton_not_array (v : JsVal) :
  isArray v = false -> array_or_singleton v = [v].
Proof. destruct v; simpl; intros H; reflexivity || discriminate. Qed.

(** C10. The value of every [SetTemplates] that
    [openMapTemplatesPanelEpic] emits is an array, one template for each
    resource of the search result; each template has [dataLoaded] and
    [loading] false; and a [ResourceList.Resource] that is not an array
    yields the array of its one template. *)
Theorem opened_panel_templates
  (api : Collaborators) (st : State) (a : Action) (v : JsVal) :
  In (SetTemplates v) (values (openMapTemplatesPanelEpic api st a)) ->
  exists data ts,
    v = JArr ts /\
    mapM newTemplate (resourcesOf data) = Ok ts /\
    List.length ts = List.length (resourcesOf data) /\
    (forall t, In t ts ->
       lookup t "dataLoaded" = JBool false /\ lookup t "loading" = JBool false) /\
    (isArray (get data ["ResourceList"; "Resource"] (JArr [])) = false ->
     exists t,
       newTemplate (get data ["ResourceList"; "Resource"] (JArr [])) = Ok t /\
       ts = [t]) /\
    ((contextTemplates st = [] /\ data = JObj []) \/
     exists filter,
       makeFilter (contextTemplates st) = Ok filter /\
       searchListByAttributes api filter = Ok data).
Proof.
  unfold openMapTemplatesPanelEpic. intros Hin.
  destruct a; try contradiction.
  change (ofType OPEN_MAP_TEMPLATES_PANEL (of_ [OpenMapTemplatesPanel]))
    with (of_ [OpenMapTemplatesPanel]) in Hin.
  rewrite switchMap_single in Hin. unfold concat in Hin at 1.
  cbn [ending of_ values] in Hin.
  destruct Hin as [Hin|Hin]; [discriminate|].
  destruct (negb (truthy (mapTemplatesLoaded st))); [|contradiction].
  cbn [app] in Hin.
  match type of Hin with
  | In _ (values (catch (switchMap ?s ?p) ?h)) =>
      set (source := s) in *; set (project := p) in *;
      assert (In (SetTemplates v) (values (switchMap source project))) as HS
  end.
  { unfold catch in Hin. destruct (ending (switchMap source project)); auto.
    cbn [values of_] in Hin. apply in_app_or in Hin as [Hin|[Hin|[]]]; auto.
    discriminate. }
  clear Hin.
  assert (SingleShot source /\
          forall data, values source = [data] ->
            (contextTemplates st = [] /\ data = JObj []) \/
            exists filter,
              makeFilter (contextTemplates st) = Ok filter /\
              searchListByAttributes api filter = Ok data) as [Hshot Hsrc].
  { subst source. destruct (contextTemplates st) as [|c cs] eqn:Ec.
    - cbn [List.length Nat.ltb Nat.leb]. split; [apply of_single_shot|].
      intros data Hd. injection Hd as <-. auto.
    - cbn [List.length Nat.ltb Nat.leb].
      destruct (makeFilter (c :: cs)) as [filter|e].
      + split; [apply defer_single_shot|].
        intros data Hd. right. exists filter. split; [reflexivity|].
        destruct (searchListByAttributes api filter); simpl in Hd;
          [now injection Hd as <- | discriminate].
      + split; [constructor|]. discriminate. }
  apply in_switchMap_single_shot in HS as (data & inner & Hv & Hp & HS);
    [|assumption].
  subst project. cbv beta in Hp.
  apply bind_Ok in Hp as (ts & Hts & Hp). apply Ok_inj in Hp. subst inner.
  destruct HS as [HS|[HS|[]]]; [|discriminate]. injection HS as <-.
  exists data, ts. split; [reflexivity|]. split; [assumption|].
  split; [eapply mapM_length, Hts|]. split; [|split].
  - intros t Ht. destruct (mapM_In _ _ _ _ Hts Ht) as (r & _ & Hr).
    eapply newTemplate_flags, Hr.
  - intros Harr. unfold resourcesOf in Hts.
    rewrite (array_or_singleton_not_array _ Harr) in Hts. simpl in Hts.
    apply bind_Ok in Hts as (t & Ht & Hts). apply Ok_inj in Hts.
    exists t. auto.
  - apply Hsrc, Hv.
Qed.

Lemma opened_panel_templates_witness :
  exists t,
    In (SetTemplates (JArr [t]))
       (values (openMapTemplatesPanelEpic Samples.api Samples.state
                  OpenMapTemplatesPanel)) /\
    lookup t "dataLoaded" = JBool false /\ lookup t "loading" = JBool false.
Proof.
  eexists.
  assert (In (SetTemplates
                (JArr [JObj [("id", JNum 7); ("name", JStr "roads");
                             ("thumbnail", JStr "roads.png");
                             ("dataLoaded", JBool false);
                             ("loading", JBool false)]]))
             (values (openMapTemplatesPanelEpic Samples.api Samples.state
                        OpenMapTemplatesPanel))) as Hin
    by (right; left; reflexivity).
  split; [exact Hin|].
  destruct (opened_panel_templates _ _ _ _ Hin)
    as (data & ts & Hv & _ & _ & Hflags & _).
  injection Hv as <-. apply Hflags. left. reflexivity.
Defined.

(* ================================================================== *)
(** ** Further properties of the share panel *)

Lemma string_app_assoc (a b c : string) :
  ((a ++ b) ++ c = a ++ (b ++ c))%string.
Proof. induction a as [|ch a IH]; simpl; [reflexivity | now rewrite IH]. Qed.

Lemma string_app_nil_r (a : string) : (a ++ "" = a)%string.
Proof. induction a as [|ch a IH]; simpl; [reflexivity | now rewrite IH]. Qed.

(** A name that no array or function inherits is read from the own
    properties alone. *)
Lemma lookup_own (v : JsVal) (k : string) :
  k <> "map" -> k <> "name" ->
  lookup v k = match assoc k (own_props v) with
               | Some x => x
               | None => JUndefined
               end.
Proof.
  intros Hm Hn. unfold lookup, inherited.
  destruct (assoc k (own_props v)); [reflexivity|].
  destruct v; try reflexivity.
  - destruct (k =? "map") eqn:E; [apply String.eqb_eq in E; contradiction|].
    reflexivity.
  - destruct (k =? "name") eqn:E; [apply String.eqb_eq in E; contradiction|].
    reflexivity.
Qed.

Lemma getLatLng_shape (correctLng : JsVal -> JsVal) (point : JsVal) :
  exists lat lon,
    SharePanel.getLatLng correctLng point =
      Ok (JObj [("lat", lat); ("lon", lon)]) /\
    (truthy point = false \/ truthy (lookup point "latlng") = false ->
     lat = JNull /\ lon = JNull) /\
    (truthy point = true -> truthy (lookup point "latlng") = true ->
     lat = lookup (lookup point "latlng") "lat" /\
     lon = correctLng (lookup (lookup point "latlng") "lng")).
Proof.
  unfold SharePanel.getLatLng.
  destruct (truthy point) eqn:Ep.
  - rewrite (member_not_nullish _ _ (truthy_not_nullish _ Ep)). cbn [bind].
    unfold js_or. destruct (truthy (lookup point "latlng")) eqn:El.
    + rewrite El.
      rewrite !(member_not_nullish _ _ (truthy_not_nullish _ El)). cbn [bind].
      do 2 eexists. split; [reflexivity|]. split.
      * intros [H|H]; discriminate.
      * auto.
    + cbn. do 2 eexists. split; [reflexivity|]. split; [auto|discriminate].
  - cbn. do 2 eexists. split; [reflexivity|]. split; [auto|discriminate].
Qed.

(** [getLatLng] never throws: it returns an object with [lat] and [lon],
    both [null] when there is no point or the point has no [latlng], and
    otherwise the [lat] of the point and its corrected longitude. *)
Theorem getLatLng_never_throws (correctLng : JsVal -> JsVal) (point : JsVal) :
  exists lat lon,
    SharePanel.getLatLng correctLng point =
      Ok (JObj [("lat", lat); ("lon", lon)]) /\
    (truthy point = false \/ truthy (lookup point "latlng") = false ->
     lat = JNull /\ lon = JNull) /\
    (truthy point = true -> truthy (lookup point "latlng") = true ->
     lat = lookup (lookup point "latlng") "lat" /\
     lon = correctLng (lookup (lookup point "latlng") "lng")).
Proof.
  destruct (getLatLng_shape correctLng point) as (lat & lon & Hr & Hnone & Hsome).
  exists lat, lon. split; [exact Hr|]. split; [exact Hnone | exact Hsome].
Qed.

(** For props that are an object [getCoordinates] never throws. The
    clicked point wins exactly when it has a [latlng] whose [lat] is not
    [null] (an undefined [lat] counts as one); otherwise the result is
    [{lat: center.y, lon: center.x}], with empty strings when the props
    have no center. *)
Theorem getCoordinates_point_or_center
  (correctLng : JsVal -> JsVal) (props : JsVal) :
  nullish props = false ->
  SharePanel.getCoordinates correctLng props =
  Ok (if truthy (lookup props "point") &&
         truthy (lookup (lookup props "point") "latlng") &&
         negb (strict_eq (lookup (lookup (lookup props "point") "latlng") "lat")
                         JNull)
      then JObj [("lat", lookup (lookup (lookup props "point") "latlng") "lat");
                 ("lon", correctLng
                           (lookup (lookup (lookup props "point") "latlng") "lng"))]
      else JObj [("lat", lookup (js_or (lookup props "center")
                                       (JObj [("x", JStr ""); ("y", JStr "")])) "y");
                 ("lon", lookup (js_or (lookup props "center")
                                       (JObj [("x", JStr ""); ("y", JStr "")])) "x")]).
Proof.
  intros Hn.
  unfold SharePanel.getCoordinates, SharePanel.getCoordinatesWith.
  rewrite (member_not_nullish _ _ Hn). cbn [bind].
  destruct (getLatLng_shape correctLng (lookup props "point"))
    as (lat & lon & -> & Hnone & Hsome).
  cbn [bind]. rewrite (member_not_nullish _ _ Hn). cbn [bind].
  assert (nullish (js_or (lookup props "center")
                         (JObj [("x", JStr ""); ("y", JStr "")])) = false) as Hc.
  { unfold js_or. destruct (truthy (lookup props "center")) eqn:E;
      [now apply truthy_not_nullish | reflexivity]. }
  rewrite !(member_not_nullish _ _ Hc). cbn [bind truthy member nullish].
  change (lookup (JObj [("lat", lat); ("lon", lon)]) "lat") with lat.
  cbn [andb].
  destruct (truthy (lookup props "point")) eqn:Ep; cbn [andb].
  - destruct (truthy (lookup (lookup props "point") "latlng")) eqn:El; cbn [andb].
    + destruct (Hsome eq_refl eq_refl) as [-> ->].
      destruct (negb (strict_eq
                        (lookup (lookup (lookup props "point") "latlng") "lat")
                        JNull)); reflexivity.
    + destruct Hnone as [-> ->]; auto.
  - destruct Hnone as [-> ->]; auto.
Qed.

Lemma getCoordinates_point_or_center_witness :
  nullish Samples.markerProps = false /\
  SharePanel.getCoordinates (fun lng => lng) Samples.markerProps =
  Ok (JObj [("lat", JStr "45"); ("lon", JStr "10")]).
Proof.
  split; [reflexivity|].
  exact (getCoordinates_point_or_center (fun lng => lng) Samples.markerProps
           eq_refl).
Defined.

Lemma getCoordinates_result (correctLng : JsVal -> JsVal) (props r : JsVal) :
  SharePanel.getCoordinates correctLng props = Ok r ->
  SharePanel.getLatLng correctLng (lookup props "point") = Ok r \/
  exists x y, r = SharePanel.centerCoordinates x y.
Proof.
  unfold SharePanel.getCoordinates, SharePanel.getCoordinatesWith. intros H.
  apply bind_Ok in H as (point & Hpoint & H).
  apply member_Ok in Hpoint as [_ ->].
  apply bind_Ok in H as (latLng & HlatLng & H).
  apply bind_Ok in H as (center & _ & H).
  apply bind_Ok in H as (x & _ & H).
  apply bind_Ok in H as (y & _ & H).
  apply bind_Ok in H as (lat & _ & H).
  destruct (truthy latLng && negb (strict_eq lat JNull))%bool;
    apply Ok_inj in H; subst r.
  - now left.
  - right. exists x, y. reflexivity.
Qed.

(** [getCoordinates] always returns an object whose keys are [lat] then
    [lon], so the center (or marker) of the share URL reads
    [<lon>,<lat>]: [values] lists the latitude first and [reverse] swaps
    the two. *)
Theorem share_url_center_is_lon_lat
  (toStringOther : JsVal -> string) (correctLng : JsVal -> JsVal)
  (props r : JsVal) :
  SharePanel.getCoordinates correctLng props = Ok r ->
  exists lat lon,
    r = JObj [("lat", lat); ("lon", lon)] /\
    SharePanel.centerOrMarker toStringOther r =
    ((if nullish lon then "" else SharePanel.ToString toStringOther lon) ++ "," ++
     (if nullish lat then "" else SharePanel.ToString toStringOther lat))%string.
Proof.
  intros H.
  assert (exists lat lon, r = JObj [("lat", lat); ("lon", lon)])
    as (lat & lon & ->).
  { destruct (getCoordinates_result correctLng props r H) as [Hl|(x & y & ->)].
    - destruct (getLatLng_shape correctLng (lookup props "point"))
        as (lat & lon & Hr & _).
      rewrite Hr in Hl. apply Ok_inj in Hl. eauto.
    - unfold SharePanel.centerCoordinates. eauto. }
  exists lat, lon. split; reflexivity.
Qed.

Lemma share_url_center_is_lon_lat_witness :
  SharePanel.getCoordinates (fun lng => lng) Samples.markerProps =
    Ok (JObj [("lat", JStr "45"); ("lon", JStr "10")]) /\
  SharePanel.centerOrMarker (fun _ => "")
    (JObj [("lat", JStr "45"); ("lon", JStr "10")]) = "10,45".
Proof.
  split; [reflexivity|].
  destruct (share_url_center_is_lon_lat (fun _ => "") (fun lng => lng)
              Samples.markerProps
              (JObj [("lat", JStr "45"); ("lon", JStr "10")]) eq_refl)
    as (lat & lon & Hr & Hc).
  injection Hr as <- <-. exact Hc.
Defined.

(** The share URL is the shared URL of the props, unchanged, when the
    panel has no advanced settings, and also when none of the three
    options is switched on in the settings. *)
Theorem share_url_unchanged
  (toStringOther : JsVal -> string) (sharedUrl : JsVal -> JsVal)
  (props state : JsVal) :
  nullish props = false ->
  nullish (lookup props "settings") = false ->
  truthy (lookup props "advancedSettings") = false \/
  (truthy (lookup (lookup props "settings") "bboxEnabled") = false /\
   truthy (lookup (lookup props "settings") "showHome") = false /\
   truthy (lookup (lookup props "settings") "centerAndZoomEnabled") = false) ->
  SharePanel.getShareUrl toStringOther sharedUrl props state =
  Ok (sharedUrl (lookup props "shareUrl")).
Proof.
  intros Hp Hs Hoff. unfold SharePanel.getShareUrl.
  rewrite !(member_not_nullish _ _ Hp). cbn [bind].
  unfold SharePanel.bboxWanted, SharePanel.homeWanted, SharePanel.centerWanted.
  rewrite !(member_not_nullish _ _ Hs). cbn [bind].
  destruct Hoff as [Ha|(Hb & Hh & Hc)].
  - rewrite Ha. cbn [negb].
    destruct (truthy (lookup (lookup props "settings") "bboxEnabled"));
      destruct (truthy (lookup (lookup props "settings") "showHome"));
      destruct (truthy (lookup (lookup props "settings") "centerAndZoomEnabled"));
      reflexivity.
  - rewrite Hb, Hh, Hc. reflexivity.
Qed.

Lemma share_url_unchanged_witness :
  SharePanel.getShareUrl (fun _ => "") (fun url => url)
    Samples.plainProps Samples.shareState =
  Ok (JStr "http://localhost/#/viewer/openlayers/1").
Proof.
  apply (share_url_unchanged (fun _ => "") (fun url => url)
           Samples.plainProps Samples.shareState);
    [reflexivity | reflexivity | left; reflexivity].
Defined.

(** Whatever the options, [getShareUrl] only appends to the shared URL:
    its result, as a string, starts with the shared URL. *)
Theorem share_url_extends_shared_url
  (toStringOther : JsVal -> string) (sharedUrl : JsVal -> JsVal)
  (props state r : JsVal) :
  SharePanel.getShareUrl toStringOther sharedUrl props state = Ok r ->
  exists suffix,
    SharePanel.ToString toStringOther r =
    (SharePanel.ToString toStringOther (sharedUrl (lookup props "shareUrl"))
     ++ suffix)%string.
Proof.
  unfold SharePanel.getShareUrl. intros H.
  apply bind_Ok in H as (settings & _ & H).
  apply bind_Ok in H as (adv & _ & H).
  apply bind_Ok in H as (url & Hu & H). apply member_Ok in Hu as [_ ->].
  apply bind_Ok in H as (bbox & _ & H).
  apply bind_Ok in H as (url1 & H1 & H).
  assert (exists s1, SharePanel.ToString toStringOther url1 =
                     (SharePanel.ToString toStringOther
                        (sharedUrl (lookup props "shareUrl")) ++ s1)%string)
    as (s1 & E1).
  { destruct bbox.
    - apply bind_Ok in H1 as (sb & _ & H1). apply Ok_inj in H1. subst url1.
      eexists. reflexivity.
    - apply Ok_inj in H1. subst url1. exists "". now rewrite string_app_nil_r. }
  apply bind_Ok in H as (home & _ & H).
  set (url2 := if home then _ else url1) in H.
  assert (exists s2, SharePanel.ToString toStringOther url2 =
                     (SharePanel.ToString toStringOther
                        (sharedUrl (lookup props "shareUrl")) ++ s2)%string)
    as (s2 & E2).
  { subst url2. destruct home.
    - cbn [SharePanel.ToString]. rewrite E1, string_app_assoc. eauto.
    - eauto. }
  clearbody url2.
  apply bind_Ok in H as (center & _ & H).
  destruct center.
  - apply bind_Ok in H as (coordinate & _ & H).
    apply bind_Ok in H as (marker & _ & H).
    apply bind_Ok in H as (zoom & _ & H).
    destruct (truthy marker); apply Ok_inj in H; subst r;
      cbn [SharePanel.ToString]; rewrite E2, string_app_assoc; eauto.
  - apply Ok_inj in H. subst r. eauto.
Qed.

Lemma share_url_extends_shared_url_witness :
  SharePanel.getShareUrl (fun _ => "") (fun url => url)
    Samples.shareProps Samples.shareState =
    Ok (JStr "http://localhost/#/viewer/openlayers/1?center=10,45&zoom=5") /\
  exists suffix,
    "http://localhost/#/viewer/openlayers/1?center=10,45&zoom=5" =
    ("http://localhost/#/viewer/openlayers/1" ++ suffix)%string.
Proof.
  split; [reflexivity|].
  exact (share_url_extends_shared_url (fun _ => "") (fun url => url)
           Samples.shareProps Samples.shareState _ eq_refl).
Defined.

(** With the embed panel disabled the tab that [render] shows is never
    the embed tab, whatever tab was selected. *)
Theorem current_tab_never_embed_when_disabled (props state tab : JsVal) :
  SharePanel.currentTab props state = Ok tab ->
  truthy (lookup props "embedPanel") = false ->
  strict_eq tab (JNum 3) = false.
Proof.
  unfold SharePanel.currentTab. intros H Hoff.
  apply bind_Ok in H as (embed & He & H). apply member_Ok in He as [_ ->].
  apply bind_Ok in H as (key & _ & H).
  rewrite Hoff in H. cbn [negb andb] in H.
  destruct (strict_eq key (JNum 3)) eqn:E; apply Ok_inj in H; subst tab;
    [reflexivity | assumption].
Qed.

Lemma current_tab_never_embed_when_disabled_witness :
  SharePanel.currentTab Samples.shareProps Samples.shareState = Ok (JNum 1) /\
  strict_eq (JNum 1) (JNum 3) = false.
Proof.
  split; [reflexivity|].
  exact (current_tab_never_embed_when_disabled Samples.shareProps
           Samples.shareState (JNum 1) eq_refl eq_refl).
Defined.

(** The zoom field never shows a falsy value: a zoom of 0 (or none) in
    the state and in the props shows 21. *)
Theorem zoom_value_is_truthy (props state z : JsVal) :
  SharePanel.zoomValue props state = Ok z ->
  truthy z = true /\
  (truthy (lookup state "zoom") = false ->
   truthy (lookup props "zoom") = false -> z = JNum 21).
Proof.
  unfold SharePanel.zoomValue. intros H.
  apply bind_Ok in H as (sz & Hs & H). apply member_Ok in Hs as [_ ->].
  destruct (truthy (lookup state "zoom")) eqn:Es.
  - apply Ok_inj in H. subst z. split; [assumption | discriminate].
  - apply bind_Ok in H as (pz & Hp & H). apply member_Ok in Hp as [_ ->].
    apply Ok_inj in H. subst z. unfold js_or.
    destruct (truthy (lookup props "zoom")) eqn:Ep.
    + split; [assumption | discriminate].
    + split; reflexivity.
Qed.

Lemma zoom_value_is_truthy_witness :
  SharePanel.zoomValue Samples.plainProps (JObj [("zoom", JNum 0)]) =
    Ok (JNum 21) /\
  truthy (JNum 21) = true.
Proof.
  split; [reflexivity|].
  exact (proj1 (zoom_value_is_truthy Samples.plainProps
                  (JObj [("zoom", JNum 0)]) (JNum 21) eq_refl)).
Defined.

Lemma lookup_obj_set_same (k : string) (v : JsVal) (fs : JsObj) :
  lookup (JObj (obj_set k v fs)) k = v.
Proof. rewrite lookup_JObj. now rewrite assoc_obj_set_same. Qed.

Lemma lookup_obj_set_other (k k' : string) (v : JsVal) (fs : JsObj) :
  k <> k' ->
  lookup (JObj (obj_set k v fs)) k' = lookup (JObj fs) k'.
Proof. intros H. rewrite !lookup_JObj. now rewrite assoc_obj_set_other. Qed.

(** The bounding box and the center are never both switched on by a
    checkbox: toggling either switches the other off, and the home and
    marker checkboxes leave both as they are. *)
Theorem toggles_keep_exclusive (props settings' : JsVal) :
  (SharePanel.toggleBbox props = Ok settings' \/
   SharePanel.toggleCenterAndZoom props = Ok settings' ->
   SharePanel.exclusive settings' = true) /\
  (SharePanel.toggleHome props = Ok settings' \/
   SharePanel.toggleMarker props = Ok settings' ->
   SharePanel.exclusive settings' =
   SharePanel.exclusive (lookup props "settings")).
Proof.
  unfold SharePanel.exclusive. split.
  - intros [H|H].
    + unfold SharePanel.toggleBbox in H.
      apply bind_Ok in H as (s & _ & H). apply bind_Ok in H as (e & _ & H).
      apply Ok_inj in H. subst settings'.
      rewrite lookup_obj_set_same. cbn [truthy]. now rewrite andb_false_r.
    + unfold SharePanel.toggleCenterAndZoom in H.
      apply bind_Ok in H as (s & _ & H). apply bind_Ok in H as (e & _ & H).
      apply Ok_inj in H. subst settings'.
      rewrite lookup_obj_set_same. reflexivity.
  - intros [H|H].
    + unfold SharePanel.toggleHome in H.
      apply bind_Ok in H as (s & Hs & H). apply member_Ok in Hs as [_ ->].
      apply bind_Ok in H as (e & _ & H). apply Ok_inj in H. subst settings'.
      rewrite !lookup_obj_set_other by discriminate.
      now rewrite !lookup_JObj, !(lookup_own (lookup props "settings"))
        by discriminate.
    + unfold SharePanel.toggleMarker in H.
      apply bind_Ok in H as (s & Hs & H). apply member_Ok in Hs as [_ ->].
      apply bind_Ok in H as (e & _ & H). apply Ok_inj in H. subst settings'.
      rewrite !lookup_obj_set_other by discriminate.
      now rewrite !lookup_JObj, !(lookup_own (lookup props "settings"))
        by discriminate.
Qed.

Lemma toggles_keep_exclusive_witness :
  SharePanel.toggleBbox Samples.shareProps =
    Ok (JObj [("centerAndZoomEnabled", JBool false);
              ("bboxEnabled", JBool true)]) /\
  SharePanel.exclusive
    (JObj [("centerAndZoomEnabled", JBool false);
           ("bboxEnabled", JBool true)]) = true.
Proof.
  split; [reflexivity|].
  exact (proj1 (toggles_keep_exclusive Samples.shareProps
                  (JObj [("centerAndZoomEnabled", JBool false);
                         ("bboxEnabled", JBool true)]))
               (or_introl eq_refl)).
Defined.

(** Each checkbox flips its own flag (as a boolean) and keeps every
    other key of the settings, except the flag that the bounding box and
    the center switch off in each other. *)
Theorem toggles_flip_their_flag (props settings' : JsVal) :
  (SharePanel.toggleBbox props = Ok settings' ->
   lookup settings' "bboxEnabled" =
     JBool (negb (truthy (lookup (lookup props "settings") "bboxEnabled"))) /\
   forall k, k <> "bboxEnabled" -> k <> "centerAndZoomEnabled" ->
     assoc k (own_props settings') =
     assoc k (own_props (lookup props "settings"))) /\
  (SharePanel.toggleCenterAndZoom props = Ok settings' ->
   lookup settings' "centerAndZoomEnabled" =
     JBool (negb (truthy (lookup (lookup props "settings")
                            "centerAndZoomEnabled"))) /\
   forall k, k <> "bboxEnabled" -> k <> "centerAndZoomEnabled" ->
     assoc k (own_props settings') =
     assoc k (own_props (lookup props "settings"))) /\
  (SharePanel.toggleHome props = Ok settings' ->
   lookup settings' "showHome" =
     JBool (negb (truthy (lookup (lookup props "settings") "showHome"))) /\
   forall k, k <> "showHome" ->
     assoc k (own_props settings') =
     assoc k (own_props (lookup props "settings"))) /\
  (SharePanel.toggleMarker props = Ok settings' ->
   lookup settings' "markerEnabled" =
     JBool (negb (truthy (lookup (lookup props "settings") "markerEnabled"))) /\
   forall k, k <> "markerEnabled" ->
     assoc k (own_props settings') =
     assoc k (own_props (lookup props "settings"))).
Proof.
  unfold SharePanel.toggleBbox, SharePanel.toggleCenterAndZoom,
    SharePanel.toggleHome, SharePanel.toggleMarker, SharePanel.js_not.
  split; [|split; [|split]]; intros H;
    apply bind_Ok in H as (s & Hs & H); apply member_Ok in Hs as [_ ->];
    apply bind_Ok in H as (e & He & H); apply member_Ok in He as [_ ->];
    apply Ok_inj in H; subst settings';
    (split;
     [first [apply lookup_obj_set_same
            |rewrite lookup_obj_set_other by discriminate;
             apply lookup_obj_set_same]
     |cbn [own_props]; intros;
      now rewrite !assoc_obj_set_other by congruence]).
Qed.

Lemma toggles_flip_their_flag_witness :
  SharePanel.toggleCenterAndZoom Samples.shareProps =
    Ok (JObj [("centerAndZoomEnabled", JBool false);
              ("bboxEnabled", JBool false)]) /\
  lookup (JObj [("centerAndZoomEnabled", JBool false);
                ("bboxEnabled", JBool false)]) "centerAndZoomEnabled" =
  JBool false.
Proof.
  split; [reflexivity|].
  destruct (toggles_flip_their_flag Samples.shareProps
              (JObj [("centerAndZoomEnabled", JBool false);
                     ("bboxEnabled", JBool false)]))
    as (_ & H & _).
  exact (proj1 (H eq_refl)).
Defined.

(* ================================================================== *)
(** ** Further properties of the template epics *)

Lemma mergeTemplateEpic_found
  (api : Collaborators) (st st' : State) (id t : JsVal) src :
  find (templates st) (idIs id) = Ok t ->
  templateData api t id = Ok src ->
  mergeTemplateEpic api st st' (MergeTemplate id) =
  wrapStartStop (SetTemplateLoading id true) (SetTemplateLoading id false)
    (showTemplateError st') (switchMap src (mergeData api st t id)).
Proof.
  intros Hf Ht.
  destruct (mergeTemplateEpic_run api st st' id)
    as [(e & _ & Hn)|(t' & src' & Hf' & Ht' & ->)].
  - apply Hn in Hf. apply templateData_cases in Ht as [Ht _]. congruence.
  - rewrite Hf in Hf'. apply Ok_inj in Hf'. subst t'.
    rewrite Ht in Ht'. apply Ok_inj in Ht'. now subst src'.
Qed.

Lemma replaceTemplateEpic_found
  (api : Collaborators) (st st' : State) (id t : JsVal) src :
  find (templates st) (idIs id) = Ok t ->
  nullish (map st) = false ->
  templateData api t id = Ok src ->
  replaceTemplateEpic api st st' (ReplaceTemplate id) =
  wrapStartStop (SetTemplateLoading id true) (SetTemplateLoading id false)
    (showTemplateError st')
    (switchMap src
       (replaceData api (lookup (map st) "zoom") (lookup (map st) "center")
          t id)).
Proof.
  intros Hf Hm Ht.
  destruct (replaceTemplateEpic_run api st st' id)
    as [(e & _ & Hn)|(t' & src' & Hf' & _ & Ht' & ->)].
  - apply Hn in Hf. apply templateData_cases in Ht as [Ht _].
    destruct Hf; congruence.
  - rewrite Hf in Hf'. apply Ok_inj in Hf'. subst t'.
    rewrite Ht in Ht'. apply Ok_inj in Ht'. now subst src'.
Qed.

Lemma wrapStartStop_completed (s e : Action) (st' : State) effs vs :
  values (wrapStartStop s e (showTemplateError st') (mkObs effs vs Completed)) =
    s :: vs ++ [e] /\
  ending (wrapStartStop s e (showTemplateError st') (mkObs effs vs Completed)) =
    Completed.
Proof. now rewrite wrapStartStop_values, wrapStartStop_ending. Qed.

Lemma wrapStartStop_notified (s e : Action) (st' : State) effs vs err :
  nullish err = false ->
  exists notification,
    lookup notification "message" =
      JStr (messageFor (lookup (js_or (lookup err "originalError") err) "status")
              (isLoggedIn st')) /\
    values (wrapStartStop s e (showTemplateError st')
              (mkObs effs vs (Failed err))) =
      s :: vs ++ [ShowError notification; e] /\
    ending (wrapStartStop s e (showTemplateError st')
              (mkObs effs vs (Failed err))) = Completed.
Proof.
  intros Hn. rewrite wrapStartStop_values, wrapStartStop_ending.
  cbn [ending values]. rewrite (showTemplateError_Ok st' err Hn).
  cbn [ending values of_]. eexists. split; [|split; reflexivity].
  reflexivity.
Qed.

(** A failed fetch. When the data of a template that is not loaded
    cannot be fetched, [getData] is called once and the run is the
    loading bracket around one notification, whose message translates
    the error (its [originalError], if it has one): nothing is stored and
    no map is configured. *)
Theorem failed_fetch_is_notified
  (api : Collaborators) (st st' : State) (id t e : JsVal) :
  find (templates st) (idIs id) = Ok t ->
  nullish t = false ->
  truthy (lookup t "dataLoaded") = false ->
  getData api id = Throw e ->
  nullish e = false ->
  exists notification,
    lookup notification "message" =
      JStr (messageFor (lookup (js_or (lookup e "originalError") e) "status")
              (isLoggedIn st')) /\
    values (mergeTemplateEpic api st st' (MergeTemplate id)) =
      [SetTemplateLoading id true; ShowError notification;
       SetTemplateLoading id false] /\
    ending (mergeTemplateEpic api st st' (MergeTemplate id)) = Completed /\
    effects (mergeTemplateEpic api st st' (MergeTemplate id)) = [GetData id] /\
    (nullish (map st) = false ->
     values (replaceTemplateEpic api st st' (ReplaceTemplate id)) =
       [SetTemplateLoading id true; ShowError notification;
        SetTemplateLoading id false] /\
     ending (replaceTemplateEpic api st st' (ReplaceTemplate id)) = Completed /\
     effects (replaceTemplateEpic api st st' (ReplaceTemplate id)) =
       [GetData id]).
Proof.
  intros Hf Hn Hl Hg He.
  assert (templateData api t id = Ok (mkObs [GetData id] [] (Failed e))) as Ht.
  { unfold templateData. rewrite (member_not_nullish _ _ Hn). cbn [bind].
    now rewrite Hl, Hg. }
  destruct (wrapStartStop_notified (SetTemplateLoading id true)
              (SetTemplateLoading id false) st' [GetData id] [] e He)
    as (n & Hmsg & Hv & Hend).
  assert (showTemplateError st' e = Ok (of_ [ShowError n])) as Hh.
  { revert Hv. rewrite wrapStartStop_values. cbn [ending values].
    rewrite (showTemplateError_Ok st' e He). cbn [ending values of_ app].
    intros Hv. now injection Hv as <-. }
  exists n. split; [exact Hmsg|].
  rewrite (mergeTemplateEpic_found _ _ _ _ _ _ Hf Ht), switchMap_failure.
  split; [exact Hv|]. split; [exact Hend|]. split.
  - rewrite wrapStartStop_effects. cbn [ending effects]. now rewrite Hh.
  - intros Hm.
    rewrite (replaceTemplateEpic_found _ _ _ _ _ _ Hf Hm Ht), switchMap_failure.
    split; [exact Hv|]. split; [exact Hend|].
    rewrite wrapStartStop_effects. cbn [ending effects]. now rewrite Hh.
Qed.

Lemma failed_fetch_is_notified_witness :
  exists notification,
    lookup notification "message" = JStr pleaseLogin /\
    values (mergeTemplateEpic Samples.api Samples.state Samples.state
              (MergeTemplate (JNum 2))) =
    [SetTemplateLoading (JNum 2) true; ShowError notification;
     SetTemplateLoading (JNum 2) false].
Proof.
  destruct (failed_fetch_is_notified Samples.api Samples.state Samples.state
              (JNum 2) Samples.freshTemplate Samples.forbidden
              eq_refl eq_refl eq_refl eq_refl eq_refl)
    as (n & Hm & Hv & _).
  exists n. split; [exact Hm | exact Hv].
Defined.

Lemma single_value_source {A} (src : Obs A) (x : A) :
  SingleShot src -> values src = [x] ->
  src = mkObs (effects src) [x] Completed.
Proof. intros [effs y|effs e] H; simpl in H; [now injection H as -> | discriminate]. Qed.

(** A successful merge. When the resolved data is a string or has a
    [map], the current configuration is saved, the data is converted if
    it is a string, and the two are merged, the run is the loading
    bracket around the data to store (if it was fetched) and one
    [ConfigureMap] of the merged configuration without [widgetsConfig]. *)
Theorem merge_success
  (api : Collaborators) (st st' : State) (id t data cur config : JsVal)
  (src : Obs JsVal) (merged : JsObj) :
  find (templates st) (idIs id) = Ok t ->
  templateData api t id = Ok src ->
  values src = [data] ->
  (hasMap data || isString data)%bool = true ->
  saveMapConfiguration api (map st) (layers st) (groups st)
    (backgrounds st) (textSearchConfig st) (additionalOptions st) = Ok cur ->
  values (mergeConfigSource api data) = [config] ->
  mergeMapConfigs api cur config = Ok merged ->
  values (mergeTemplateEpic api st st' (MergeTemplate id)) =
    SetTemplateLoading id true :: storeData t id data ++
    [ConfigureMap (JObj (omit merged "widgetsConfig")) JNull JUndefined;
     SetTemplateLoading id false] /\
  ending (mergeTemplateEpic api st st' (MergeTemplate id)) = Completed.
Proof.
  intros Hf Ht Hv Hc Hs Hcv Hm.
  rewrite (mergeTemplateEpic_found _ _ _ _ _ _ Hf Ht).
  rewrite (single_value_source src data (templateData_single_shot _ _ _ _ Ht) Hv).
  rewrite switchMap_value. unfold mergeData. rewrite Hc, Hs. cbn [bind].
  rewrite (single_value_source _ config (mergeConfigSource_single_shot api data) Hcv).
  rewrite switchMap_value, Hm. cbn [bind effects values ending of_].
  rewrite cloneDeep_id.
  destruct (wrapStartStop_completed (SetTemplateLoading id true)
              (SetTemplateLoading id false) st'
              (effects src ++ effects (mergeConfigSource api data) ++ [])
              (storeData t id data ++
               [ConfigureMap (JObj (omit merged "widgetsConfig")) JNull JUndefined]))
    as [Hvals Hend].
  rewrite Hvals, Hend, <- app_assoc. split; reflexivity.
Qed.

Lemma merge_success_witness :
  values (mergeTemplateEpic Samples.api Samples.state Samples.state
            (MergeTemplate (JNum 1))) =
  [SetTemplateLoading (JNum 1) true;
   ConfigureMap (JObj [("map", Samples.currentMap); ("layers", JArr [])])
     JNull JUndefined;
   SetTemplateLoading (JNum 1) false].
Proof.
  exact (proj1 (merge_success Samples.api Samples.state Samples.state (JNum 1)
                  Samples.cachedTemplate Samples.worldData
                  (JObj [("map", Samples.currentMap); ("layers", JArr [])])
                  Samples.worldData (of_ [Samples.worldData])
                  [("map", Samples.currentMap);
                   ("widgetsConfig", JObj [("widgets", JArr [])]);
                   ("layers", JArr [])]
                  eq_refl eq_refl eq_refl eq_refl eq_refl eq_refl eq_refl)).
Defined.

(** A failed conversion. When the resolved data of a merge is a string
    that [toMapConfig] rejects, the run is the loading bracket around
    one notification: the data, even if it was just fetched, is not
    stored. *)
Theorem merge_conversion_failure
  (api : Collaborators) (st st' : State) (id t data cur e : JsVal)
  (src : Obs JsVal) :
  find (templates st) (idIs id) = Ok t ->
  templateData api t id = Ok src ->
  values src = [data] ->
  isString data = true ->
  saveMapConfiguration api (map st) (layers st) (groups st)
    (backgrounds st) (textSearchConfig st) (additionalOptions st) = Ok cur ->
  toMapConfig api data (JBool true) = Throw e ->
  nullish e = false ->
  exists notification,
    lookup notification "message" =
      JStr (messageFor (lookup (js_or (lookup e "originalError") e) "status")
              (isLoggedIn st')) /\
    values (mergeTemplateEpic api st st' (MergeTemplate id)) =
      [SetTemplateLoading id true; ShowError notification;
       SetTemplateLoading id false] /\
    ending (mergeTemplateEpic api st st' (MergeTemplate id)) = Completed.
Proof.
  intros Hf Ht Hv Hstr Hs Hc He.
  rewrite (mergeTemplateEpic_found _ _ _ _ _ _ Hf Ht).
  rewrite (single_value_source src data (templateData_single_shot _ _ _ _ Ht) Hv).
  rewrite switchMap_value. unfold mergeData.
  rewrite Hstr, orb_true_r, Hs. cbn [bind].
  unfold mergeConfigSource. rewrite Hstr, Hc. cbn [defer].
  rewrite switchMap_failure. cbn [effects values ending].
  apply (wrapStartStop_notified (SetTemplateLoading id true)
           (SetTemplateLoading id false) st' _ [] e He).
Qed.

Lemma merge_conversion_failure_witness :
  exists notification,
    lookup notification "message" = JStr unknownError /\
    values (mergeTemplateEpic
              Samples.wmcApi
              Samples.state Samples.state (MergeTemplate (JNum 2))) =
    [SetTemplateLoading (JNum 2) true; ShowError notification;
     SetTemplateLoading (JNum 2) false].
Proof.
  destruct (merge_conversion_failure
              Samples.wmcApi
              Samples.state Samples.state (JNum 2) Samples.freshTemplate
              (JStr "<ViewContext")
              (JObj [("map", Samples.currentMap); ("layers", JArr [])])
              Samples.notWmc
              (defer (GetData (JNum 2)) (Ok (JStr "<ViewContext")))
              eq_refl eq_refl eq_refl eq_refl eq_refl eq_refl eq_refl)
    as (n & Hm & Hv & _).
  exists n. split; [exact Hm | exact Hv].
Defined.

(** A successful replace. When the resolved configuration is truthy and
    has a [map], the run is the loading bracket around the data to store
    (if it was fetched) and one [ConfigureMap]. *)
Theorem replace_success
  (api : Collaborators) (st st' : State) (id t data config : JsVal)
  (src : Obs JsVal) :
  find (templates st) (idIs id) = Ok t ->
  nullish (map st) = false ->
  templateData api t id = Ok src ->
  values src = [data] ->
  values (replaceConfigSource api data) = [config] ->
  truthy config = true ->
  nullish (lookup config "map") = false ->
  exists cfg flag,
    replacedConfig (lookup (map st) "zoom") (lookup (map st) "center") config =
      Ok cfg /\
    zoomToExtentOf (lookup config "map") = Ok flag /\
    values (replaceTemplateEpic api st st' (ReplaceTemplate id)) =
      SetTemplateLoading id true :: storeData t id data ++
      [ConfigureMap cfg JNull flag; SetTemplateLoading id false] /\
    ending (replaceTemplateEpic api st st' (ReplaceTemplate id)) = Completed.
Proof.
  intros Hf Hm Ht Hv Hcv Htr Hn.
  rewrite (replaceTemplateEpic_found _ _ _ _ _ _ Hf Hm Ht).
  rewrite (single_value_source src data (templateData_single_shot _ _ _ _ Ht) Hv).
  rewrite switchMap_value. unfold replaceData.
  rewrite (single_value_source _ config
             (replaceConfigSource_single_shot api data) Hcv).
  rewrite switchMap_value. unfold replaceConfig. rewrite Htr.
  assert (replacedConfig (lookup (map st) "zoom") (lookup (map st) "center")
            config =
          Ok (JObj (obj_set "map"
                      (JObj (obj_set "center"
                               (js_or (lookup (lookup config "map") "center")
                                      (lookup (map st) "center"))
                            (obj_set "zoom"
                               (js_or (lookup (lookup config "map") "zoom")
                                      (lookup (map st) "zoom"))
                            (own_props (lookup config "map")))))
                      (own_props config)))) as Hr.
  { unfold replacedConfig.
    rewrite (member_not_nullish _ _ (truthy_not_nullish _ Htr)). cbn [bind].
    now rewrite !(member_not_nullish _ _ Hn). }
  rewrite Hr. cbn [bind].
  rewrite (member_not_nullish _ _ (truthy_not_nullish _ Htr)). cbn [bind].
  rewrite (zoomToExtentOf_Ok _ Hn). cbn [bind effects values ending of_].
  rewrite cloneDeep_id.
  do 2 eexists. split; [reflexivity|]. split; [reflexivity|].
  rewrite wrapStartStop_values, wrapStartStop_ending. cbn [ending values].
  rewrite <- app_assoc. split; reflexivity.
Qed.

Lemma replace_success_witness :
  values (replaceTemplateEpic Samples.api Samples.state Samples.state
            (ReplaceTemplate (JNum 1))) =
  [SetTemplateLoading (JNum 1) true;
   ConfigureMap Samples.replacedWorld JNull Samples.worldBbox;
   SetTemplateLoading (JNum 1) false].
Proof.
  destruct (replace_success Samples.api Samples.state Samples.state (JNum 1)
              Samples.cachedTemplate Samples.worldData Samples.worldData
              (of_ [Samples.worldData])
              eq_refl eq_refl eq_refl eq_refl eq_refl eq_refl eq_refl)
    as (cfg & flag & Hc & Hz & Hv & _).
  apply Ok_inj in Hc. apply Ok_inj in Hz. subst cfg flag. exact Hv.
Defined.

(** A replace without a configuration. When the resolved data is not a
    string and has no [map] (the configuration is [null]), or the
    conversion of a string yields a falsy value, the run is the loading
    bracket around the data to store, if it was fetched: no
    [ConfigureMap] and no notification. *)
Theorem replace_without_config
  (api : Collaborators) (st st' : State) (id t data config : JsVal)
  (src : Obs JsVal) :
  find (templates st) (idIs id) = Ok t ->
  nullish (map st) = false ->
  templateData api t id = Ok src ->
  values src = [data] ->
  values (replaceConfigSource api data) = [config] ->
  truthy config = false ->
  values (replaceTemplateEpic api st st' (ReplaceTemplate id)) =
    SetTemplateLoading id true :: storeData t id data ++
    [SetTemplateLoading id false] /\
  ending (replaceTemplateEpic api st st' (ReplaceTemplate id)) = Completed.
Proof.
  intros Hf Hm Ht Hv Hcv Htr.
  rewrite (replaceTemplateEpic_found _ _ _ _ _ _ Hf Hm Ht).
  rewrite (single_value_source src data (templateData_single_shot _ _ _ _ Ht) Hv).
  rewrite switchMap_value. unfold replaceData.
  rewrite (single_value_source _ config
             (replaceConfigSource_single_shot api data) Hcv).
  rewrite switchMap_value. unfold replaceConfig. rewrite Htr.
  cbn [bind effects values ending of_].
  rewrite wrapStartStop_values, wrapStartStop_ending. cbn [ending values].
  rewrite app_nil_r. split; reflexivity.
Qed.

Lemma replace_without_config_witness :
  values (replaceTemplateEpic Samples.api Samples.state Samples.state
            (ReplaceTemplate (JNum 3))) =
  [SetTemplateLoading (JNum 3) true; SetTemplateLoading (JNum 3) false].
Proof.
  exact (proj1 (replace_without_config Samples.api Samples.state Samples.state
                  (JNum 3) Samples.noMapTemplate
                  (JObj [("layers", JArr [])]) JNull
                  (of_ [JObj [("layers", JArr [])]])
                  eq_refl eq_refl eq_refl eq_refl eq_refl eq_refl)).
Defined.

(** A replace whose configuration has no map. When the resolved
    configuration is truthy and its [map] is [null] or [undefined] (the
    conversion of a string can yield one), reading [config.map.zoom]
    throws a TypeError inside the wrapped stream: the run is the loading
    bracket around the "unknown error" notification, and the data is not
    stored. *)
Theorem replace_config_without_map
  (api : Collaborators) (st st' : State) (id t data config : JsVal)
  (src : Obs JsVal) :
  find (templates st) (idIs id) = Ok t ->
  nullish (map st) = false ->
  templateData api t id = Ok src ->
  values src = [data] ->
  values (replaceConfigSource api data) = [config] ->
  truthy config = true ->
  nullish (lookup config "map") = true ->
  exists notification,
    lookup notification "message" = JStr unknownError /\
    values (replaceTemplateEpic api st st' (ReplaceTemplate id)) =
      [SetTemplateLoading id true; ShowError notification;
       SetTemplateLoading id false] /\
    ending (replaceTemplateEpic api st st' (ReplaceTemplate id)) = Completed.
Proof.
  intros Hf Hm Ht Hv Hcv Htr Hn.
  rewrite (replaceTemplateEpic_found _ _ _ _ _ _ Hf Hm Ht).
  rewrite (single_value_source src data (templateData_single_shot _ _ _ _ Ht) Hv).
  rewrite switchMap_value. unfold replaceData.
  rewrite (single_value_source _ config
             (replaceConfigSource_single_shot api data) Hcv).
  rewrite switchMap_value. unfold replaceConfig, replacedConfig. rewrite Htr.
  rewrite (member_not_nullish _ _ (truthy_not_nullish _ Htr)). cbn [bind].
  assert (member (lookup config "map") "zoom" =
          Throw (TypeError "Cannot read property 'zoom'")) as Hz
    by (unfold member; now rewrite Hn).
  rewrite Hz. cbn [bind effects values ending].
  match goal with
  | |- context [wrapStartStop _ _ _ (mkObs ?effs _ _)] =>
      destruct (wrapStartStop_notified (SetTemplateLoading id true)
                  (SetTemplateLoading id false) st' effs []
                  (TypeError "Cannot read property 'zoom'") eq_refl)
        as (n & Hmsg & Hvals & Hend)
  end.
  exists n. split; [exact Hmsg|]. split; [exact Hvals | exact Hend].
Qed.

Lemma replace_config_without_map_witness :
  exists notification,
    lookup notification "message" = JStr unknownError /\
    values (replaceTemplateEpic Samples.mapLessApi Samples.state Samples.state
              (ReplaceTemplate (JNum 2))) =
    [SetTemplateLoading (JNum 2) true; ShowError notification;
     SetTemplateLoading (JNum 2) false].
Proof.
  destruct (replace_config_without_map Samples.mapLessApi Samples.state
              Samples.state (JNum 2) Samples.freshTemplate
              (JStr "<ViewContext") (JObj [("layers", JArr [])])
              (defer (GetData (JNum 2)) (Ok (JStr "<ViewContext")))
              eq_refl eq_refl eq_refl eq_refl eq_refl eq_refl eq_refl)
    as (n & Hm & Hv & _).
  exists n. split; [exact Hm | exact Hv].
Defined.

Lemma mergeData_stores (api : Collaborators) (st : State) (t id d i x : JsVal) inner :
  mergeData api st t id d = Ok inner ->
  In (SetTemplateData i x) (values inner) ->
  i = id /\ x = d /\ truthy (lookup t "dataLoaded") = false.
Proof.
  unfold mergeData. destruct (hasMap d || isString d)%bool.
  - intros H Hin. apply bind_Ok in H as (cur & _ & H).
    apply Ok_inj in H. subst inner.
    apply in_switchMap_single_shot in Hin as (config & in2 & _ & Hp & Hin);
      [|apply mergeConfigSource_single_shot].
    apply bind_Ok in Hp as (merged & _ & Hp). apply Ok_inj in Hp. subst in2.
    cbn [values of_] in Hin. apply in_app_or in Hin as [Hin|[Hin|[]]];
      [|discriminate].
    apply in_storeData in Hin as [Hin Hl]. injection Hin as -> ->. auto.
  - intros H Hin. apply Ok_inj in H. subst inner.
    destruct (truthy (lookup t "dataLoaded")); cbn in Hin; [contradiction|].
    destruct Hin as [Hin|[]]. injection Hin as -> ->. auto.
Qed.

Lemma replaceData_stores (api : Collaborators)
  (zoom center t id d i x : JsVal) inner :
  replaceData api zoom center t id d = Ok inner ->
  In (SetTemplateData i x) (values inner) ->
  i = id /\ x = d /\ truthy (lookup t "dataLoaded") = false.
Proof.
  unfold replaceData. intros H Hin. apply Ok_inj in H. subst inner.
  apply in_switchMap_single_shot in Hin as (config & in2 & _ & Hp & Hin);
    [|apply replaceConfigSource_single_shot].
  unfold replaceConfig in Hp. apply bind_Ok in Hp as (configure & Hc & Hp).
  apply Ok_inj in Hp. subst in2. cbn [values of_] in Hin.
  apply in_app_or in Hin as [Hin|Hin].
  - apply in_storeData in Hin as [Hin Hl]. injection Hin as -> ->. auto.
  - destruct (truthy config).
    + apply bind_Ok in Hc as (c & _ & Hc). apply bind_Ok in Hc as (m & _ & Hc).
      apply bind_Ok in Hc as (z & _ & Hc). apply Ok_inj in Hc. subst configure.
      destruct Hin as [Hin|[]]. discriminate.
    + apply Ok_inj in Hc. subst configure. contradiction.
Qed.

Lemma fetched_value (api : Collaborators) (t id d : JsVal) src :
  templateData api t id = Ok src ->
  truthy (lookup t "dataLoaded") = false ->
  values src = [d] ->
  getData api id = Ok d.
Proof.
  intros Ht Hl Hv. apply templateData_cases in Ht as [_ [[Ht _]|[_ ->]]].
  - congruence.
  - destruct (getData api id); simpl in Hv; [now injection Hv as -> | discriminate].
Qed.

(** Only fetched data is stored. Every [SetTemplateData] that a merge or
    a replace emits is for the id of the action, for a template that was
    not loaded, and carries what [getData] answered for that id; a cached
    template is never stored again. *)
Theorem only_fetched_data_is_stored
  (api : Collaborators) (st st' : State) (id i x : JsVal) :
  In (SetTemplateData i x)
     (values (mergeTemplateEpic api st st' (MergeTemplate id))) \/
  In (SetTemplateData i x)
     (values (replaceTemplateEpic api st st' (ReplaceTemplate id))) ->
  i = id /\
  getData api id = Ok x /\
  exists t, find (templates st) (idIs id) = Ok t /\
            truthy (lookup t "dataLoaded") = false.
Proof.
  intros [Hin|Hin].
  - destruct (mergeTemplateEpic_run api st st' id)
      as [(e & Hr & _)|(t & src & Hf & Ht & Hr)]; rewrite Hr in Hin;
      [contradiction|].
    apply in_wrapStartStop in Hin as [H|[H|[H|(err & b & _ & Hb & H)]]];
      try discriminate.
    + apply in_switchMap_single_shot in H as (d & inner & Hv & Hp & H);
        [|eapply templateData_single_shot, Ht].
      destruct (mergeData_stores _ _ _ _ _ _ _ _ Hp H) as (-> & -> & Hl).
      split; [reflexivity|]. split; [eapply fetched_value; eassumption|].
      eauto.
    + destruct (not_in_showTemplateError _ _ _ _ Hb H). discriminate.
  - destruct (replaceTemplateEpic_run api st st' id)
      as [(e & Hr & _)|(t & src & Hf & _ & Ht & Hr)]; rewrite Hr in Hin;
      [contradiction|].
    apply in_wrapStartStop in Hin as [H|[H|[H|(err & b & _ & Hb & H)]]];
      try discriminate.
    + apply in_switchMap_single_shot in H as (d & inner & Hv & Hp & H);
        [|eapply templateData_single_shot, Ht].
      destruct (replaceData_stores _ _ _ _ _ _ _ _ _ Hp H) as (-> & -> & Hl).
      split; [reflexivity|]. split; [eapply fetched_value; eassumption|].
      eauto.
    + destruct (not_in_showTemplateError _ _ _ _ Hb H). discriminate.
Qed.

Lemma only_fetched_data_is_stored_witness :
  In (SetTemplateData (JNum 2) Samples.worldData)
     (values (replaceTemplateEpic Samples.fetchingApi Samples.state
                Samples.state (ReplaceTemplate (JNum 2)))) /\
  getData Samples.fetchingApi (JNum 2) = Ok Samples.worldData.
Proof.
  assert (In (SetTemplateData (JNum 2) Samples.worldData)
            (values (replaceTemplateEpic Samples.fetchingApi Samples.state
                       Samples.state (ReplaceTemplate (JNum 2)))))
    as Hin by (right; left; reflexivity).
  split; [exact Hin|].
  exact (proj1 (proj2 (only_fetched_data_is_stored _ _ _ _ _ _ (or_intror Hin)))).
Defined.

Lemma in_effects_switchMap_single_shot {A B} (src : Obs A)
  (project : A -> Result (Obs B)) (eff : Effect) :
  SingleShot src ->
  In eff (effects (switchMap src project)) ->
  In eff (effects src) \/
  exists x inner, values src = [x] /\ project x = Ok inner /\
                  In eff (effects inner).
Proof.
  intros Hs Hin.
  destruct (switchMap_single_shot src project Hs)
    as [(x & inner & Hv & Hp & Heq)|(e & Heq)]; rewrite Heq in Hin;
    cbn [effects] in Hin.
  - apply in_app_or in Hin as [Hin|Hin]; [now left|]. right. eauto.
  - now left.
Qed.

Lemma in_effects_wrapStartStop (s e : Action) (st' : State)
  (stream : Obs Action) (eff : Effect) :
  In eff (effects (wrapStartStop s e (showTemplateError st') stream)) ->
  In eff (effects stream).
Proof.
  rewrite wrapStartStop_effects. destruct (ending stream) as [|err]; auto.
  destruct (showTemplateError st' err) as [b|e'] eqn:E; auto.
  apply showTemplateError_shape in E as [n ->]. cbn [effects of_].
  now rewrite app_nil_r.
Qed.

(** The calls to the resource API and to the converter. Of these two
    collaborators (the calls to the map utilities are not logged), a
    merge or a replace calls [getData], for the id of the action, and
    [toMapConfig], on data that is a string: with [true] as second
    argument in a merge and with none in a replace. It never calls the
    search of the resource API. *)
Theorem template_epics_calls
  (api : Collaborators) (st st' : State) (id : JsVal) (eff : Effect) :
  (In eff (effects (mergeTemplateEpic api st st' (MergeTemplate id))) ->
   eff = GetData id \/
   exists data, isString data = true /\ eff = ToMapConfig data (JBool true)) /\
  (In eff (effects (replaceTemplateEpic api st st' (ReplaceTemplate id))) ->
   eff = GetData id \/
   exists data, isString data = true /\ eff = ToMapConfig data JUndefined).
Proof.
  assert (forall t src, templateData api t id = Ok src ->
                        In eff (effects src) -> eff = GetData id) as Hsrc.
  { intros t src Ht Hin. apply templateData_cases in Ht as [_ [[_ ->]|[_ ->]]].
    - contradiction.
    - destruct (getData api id); destruct Hin as [<-|[]]; reflexivity. }
  split; intros Hin.
  - destruct (mergeTemplateEpic_run api st st' id)
      as [(e & Hr & _)|(t & src & Hf & Ht & Hr)]; rewrite Hr in Hin;
      [contradiction|].
    apply in_effects_wrapStartStop in Hin.
    apply in_effects_switchMap_single_shot in Hin
      as [Hin|(d & inner & _ & Hp & Hin)];
      [left; eapply Hsrc; eassumption | |eapply templateData_single_shot, Ht].
    right. unfold mergeData in Hp. destruct (hasMap d || isString d)%bool.
    + apply bind_Ok in Hp as (cur & _ & Hp). apply Ok_inj in Hp. subst inner.
      apply in_effects_switchMap_single_shot in Hin
        as [Hin|(c & in2 & _ & Hp & Hin)];
        [| |apply mergeConfigSource_single_shot].
      * unfold mergeConfigSource in Hin. destruct (isString d) eqn:Es;
          [|contradiction].
        exists d. split; [exact Es|].
        destruct (toMapConfig api d (JBool true)); destruct Hin as [<-|[]];
          reflexivity.
      * apply bind_Ok in Hp as (m & _ & Hp). apply Ok_inj in Hp. subst in2.
        contradiction.
    + apply Ok_inj in Hp. subst inner.
      destruct (negb (truthy (lookup t "dataLoaded"))); contradiction.
  - destruct (replaceTemplateEpic_run api st st' id)
      as [(e & Hr & _)|(t & src & Hf & _ & Ht & Hr)]; rewrite Hr in Hin;
      [contradiction|].
    apply in_effects_wrapStartStop in Hin.
    apply in_effects_switchMap_single_shot in Hin
      as [Hin|(d & inner & _ & Hp & Hin)];
      [left; eapply Hsrc; eassumption | |eapply templateData_single_shot, Ht].
    right. unfold replaceData in Hp. apply Ok_inj in Hp. subst inner.
    apply in_effects_switchMap_single_shot in Hin
      as [Hin|(c & in2 & _ & Hp & Hin)];
      [| |apply replaceConfigSource_single_shot].
    + unfold replaceConfigSource in Hin. destruct (isString d) eqn:Es;
        [|contradiction].
      exists d. split; [exact Es|].
      destruct (toMapConfig api d JUndefined); destruct Hin as [<-|[]];
        reflexivity.
    + apply replaceConfig_shape in Hp as [Hp _]. rewrite Hp in Hin.
      contradiction.
Qed.

Lemma template_epics_calls_witness :
  In (ToMapConfig (JStr "<ViewContext") (JBool true))
     (effects (mergeTemplateEpic Samples.wmcApi Samples.state Samples.state
                 (MergeTemplate (JNum 2)))) /\
  (ToMapConfig (JStr "<ViewContext") (JBool true) = GetData (JNum 2) \/
   exists data,
     isString data = true /\
     ToMapConfig (JStr "<ViewContext") (JBool true) =
     ToMapConfig data (JBool true)).
Proof.
  assert (In (ToMapConfig (JStr "<ViewContext") (JBool true))
            (effects (mergeTemplateEpic Samples.wmcApi Samples.state
                        Samples.state (MergeTemplate (JNum 2)))))
    as Hin by (right; left; reflexivity).
  split; [exact Hin|].
  exact (proj1 (template_epics_calls Samples.wmcApi Samples.state Samples.state
                  (JNum 2) _) Hin).
Defined.

Lemma samples_api_throws_errors : ThrowsErrors Samples.api.
Proof.
  repeat split; intros; simpl in *; try discriminate.
  match goal with H : Throw _ = Throw _ |- _ => injection H as <- end.
  reflexivity.
Defined.

Lemma mergeTemplateEpic_bracket_witness :
  ending (mergeTemplateEpic Samples.api Samples.state Samples.state
            (MergeTemplate (JNum 2))) = Completed /\
  exists middle,
    values (mergeTemplateEpic Samples.api Samples.state Samples.state
              (MergeTemplate (JNum 2))) =
      SetTemplateLoading (JNum 2) true :: middle ++
      [SetTemplateLoading (JNum 2) false] /\
    forallb (fun a => negb (isLoading a)) middle = true.
Proof.
  exact (mergeTemplateEpic_bracket Samples.api Samples.state Samples.state
           (JNum 2) Samples.freshTemplate samples_api_throws_errors
           eq_refl eq_refl).
Defined.

Lemma replaceTemplateEpic_bracket_witness :
  ending (replaceTemplateEpic Samples.api Samples.state Samples.state
            (ReplaceTemplate (JNum 1))) = Completed /\
  exists middle,
    values (replaceTemplateEpic Samples.api Samples.state Samples.state
              (ReplaceTemplate (JNum 1))) =
      SetTemplateLoading (JNum 1) true :: middle ++
      [SetTemplateLoading (JNum 1) false] /\
    forallb (fun a => negb (isLoading a)) middle = true.
Proof.
  exact (replaceTemplateEpic_bracket Samples.api Samples.state Samples.state
           (JNum 1) Samples.cachedTemplate samples_api_throws_errors
           eq_refl eq_refl eq_refl).
Defined.

(** The error that is translated. The handler of the template epics
    reads the status of [e.originalError] when the error has a truthy
    one, and of the error itself otherwise; the notification always has
    the same title and placement, and its message is one of the four
    message ids. *)
Theorem handler_translates_original_error (st' : State) (e : JsVal) :
  nullish e = false ->
  exists notification,
    showTemplateError st' e = Ok (of_ [ShowError notification]) /\
    lookup notification "title" = JStr "context.errors.template.title" /\
    lookup notification "position" = JStr "tc" /\
    lookup notification "autoDismiss" = JNum 5 /\
    (truthy (lookup e "originalError") = true ->
     lookup notification "message" =
     JStr (messageFor (lookup (lookup e "originalError") "status")
             (isLoggedIn st'))) /\
    (truthy (lookup e "originalError") = false ->
     lookup notification "message" =
     JStr (messageFor (lookup e "status") (isLoggedIn st'))) /\
    (exists m, lookup notification "message" = JStr m /\
               (m = unknownError \/ m = pleaseLogin \/
                m = notAccessible \/ m = notFound)).
Proof.
  intros Hn. rewrite (showTemplateError_Ok st' e Hn).
  eexists. split; [reflexivity|]. repeat (split; [reflexivity|]).
  split; [|split].
  - intros H. cbn. unfold js_or. now rewrite H.
  - intros H. cbn. unfold js_or. now rewrite H.
  - eexists. split; [reflexivity|]. unfold messageFor.
    destruct (strict_eq _ (JNum 404)); auto.
    destruct (strict_eq _ (JNum 403)); auto.
    destruct (isLoggedIn st'); auto.
Qed.

Lemma handler_translates_original_error_witness :
  exists notification,
    showTemplateError Samples.state
      (JObj [("status", JNum 403);
             ("originalError", JObj [("status", JNum 404)])]) =
      Ok (of_ [ShowError notification]) /\
    lookup notification "message" = JStr notFound.
Proof.
  destruct (handler_translates_original_error Samples.state
              (JObj [("status", JNum 403);
                     ("originalError", JObj [("status", JNum 404)])])
              eq_refl)
    as (n & Hs & _ & _ & _ & Hm & _).
  exists n. split; [exact Hs | exact (Hm eq_refl)].
Defined.

(* ================================================================== *)
(** ** Further properties of the templates panel *)

(** The part of [openMapTemplatesPanelEpic] that follows the
    [setControlProperty]: the search, the templates, the loaded flag. *)
Lemma open_panel_unfold (api : Collaborators) (st : State) :
  openMapTemplatesPanelEpic api st OpenMapTemplatesPanel =
  concat
    (of_ [SetControlProperty "mapTemplates" "enabled" (JBool true) (JBool true)])
    (if negb (truthy (mapTemplatesLoaded st))
     then catch
            (switchMap
               (if (0 <? List.length (contextTemplates st))%nat
                then match makeFilter (contextTemplates st) with
                     | Ok filter =>
                         defer (SearchList filter)
                               (searchListByAttributes api filter)
                     | Throw e => throwError e
                     end
                else of_ [JObj []])
               (fun data =>
                  newTemplates <- mapM newTemplate (resourcesOf data) ;;
                  Ok (of_ [SetTemplates (JArr newTemplates);
                           SetMapTemplatesLoaded true JUndefined])))
            (fun err => Ok (of_ [SetMapTemplatesLoaded true err]))
     else empty).
Proof.
  unfold openMapTemplatesPanelEpic.
  change (ofType OPEN_MAP_TEMPLATES_PANEL (of_ [OpenMapTemplatesPanel]))
    with (of_ [OpenMapTemplatesPanel]).
  now rewrite switchMap_single.
Qed.

(** What the templates step does with the answer of the search. *)
Lemma open_panel_answer (effs : list Effect) (data : JsVal) :
  let run :=
    catch
      (switchMap (mkObs effs [data] Completed)
         (fun data =>
            newTemplates <- mapM newTemplate (resourcesOf data) ;;
            Ok (of_ [SetTemplates (JArr newTemplates);
                     SetMapTemplatesLoaded true JUndefined])))
      (fun err => Ok (of_ [SetMapTemplatesLoaded true err])) in
  effects run = effs /\ ending run = Completed /\
  ((exists ts, mapM newTemplate (resourcesOf data) = Ok ts /\
               values run = [SetTemplates (JArr ts);
                             SetMapTemplatesLoaded true JUndefined]) \/
   (exists err, mapM newTemplate (resourcesOf data) = Throw err /\
                values run = [SetMapTemplatesLoaded true err])).
Proof.
  intros run. subst run. rewrite switchMap_value.
  destruct (mapM newTemplate (resourcesOf data)) as [ts|err]; cbn.
  - rewrite app_nil_r. split; [reflexivity|]. split; [reflexivity|].
    left. eauto.
  - rewrite app_nil_r. split; [reflexivity|]. split; [reflexivity|].
    right. eauto.
Qed.

(** Opening the panel, in a store whose context templates are an array
    (as every [State] has them; the code throws outside its [catch] when
    the selector yields [undefined]): the run completes and searches at
    most once. It first enables the panel; when the templates are already
    loaded it does nothing else; otherwise it ends with
    [setMapTemplatesLoaded(true)], after the templates when all went
    well, and carrying the error when the filter, the search or a
    thumbnail failed. *)
Theorem open_panel_always_completes (api : Collaborators) (st : State) :
  let run := openMapTemplatesPanelEpic api st OpenMapTemplatesPanel in
  let enable :=
    SetControlProperty "mapTemplates" "enabled" (JBool true) (JBool true) in
  ending run = Completed /\
  (effects run = [] \/
   exists filter, makeFilter (contextTemplates st) = Ok filter /\
                  effects run = [SearchList filter]) /\
  (truthy (mapTemplatesLoaded st) = true ->
   values run = [enable] /\ effects run = []) /\
  (truthy (mapTemplatesLoaded st) = false ->
   (exists ts, values run = [enable; SetTemplates (JArr ts);
                             SetMapTemplatesLoaded true JUndefined]) \/
   (exists err, values run = [enable; SetMapTemplatesLoaded true err])).
Proof.
  intros run enable. subst run enable. rewrite open_panel_unfold.
  destruct (truthy (mapTemplatesLoaded st)) eqn:El; cbn [negb].
  - cbn. split; [reflexivity|]. split; [now left|].
    split; [auto | discriminate].
  - assert (forall effs data,
              let tail :=
                catch
                  (switchMap (mkObs effs [data] Completed)
                     (fun data =>
                        newTemplates <- mapM newTemplate (resourcesOf data) ;;
                        Ok (of_ [SetTemplates (JArr newTemplates);
                                 SetMapTemplatesLoaded true JUndefined])))
                  (fun err => Ok (of_ [SetMapTemplatesLoaded true err])) in
              let run :=
                concat
                  (of_ [SetControlProperty "mapTemplates" "enabled"
                          (JBool true) (JBool true)]) tail in
              ending run = Completed /\ effects run = effs /\
              ((exists ts,
                   values run =
                   [SetControlProperty "mapTemplates" "enabled"
                      (JBool true) (JBool true);
                    SetTemplates (JArr ts);
                    SetMapTemplatesLoaded true JUndefined]) \/
               (exists err,
                   values run =
                   [SetControlProperty "mapTemplates" "enabled"
                      (JBool true) (JBool true);
                    SetMapTemplatesLoaded true err]))) as Hanswer.
    { intros effs data tail run. subst run tail.
      destruct (open_panel_answer effs data) as (He & Hend & Hv).
      unfold concat. cbn [ending of_ effects values app].
      rewrite He, Hend. split; [reflexivity|]. split; [reflexivity|].
      destruct Hv as [(ts & _ & ->)|(err & _ & ->)]; [left|right]; eauto. }
    destruct (contextTemplates st) as [|c cs] eqn:Ec.
    + cbn [List.length Nat.ltb Nat.leb].
      destruct (Hanswer [] (JObj [])) as (Hend & He & Hv).
      change (@of_ JsVal [JObj []]) with (@mkObs JsVal [] [JObj []] Completed).
      rewrite Hend, He.
      split; [reflexivity|]. split; [now left|]. split; [discriminate|].
      intros _. exact Hv.
    + cbn [List.length Nat.ltb Nat.leb].
      destruct (makeFilter (c :: cs)) as [filter|e] eqn:Ef.
      * destruct (searchListByAttributes api filter) as [data|e] eqn:Es;
          cbn [defer].
        -- destruct (Hanswer [SearchList filter] data) as (Hend & He & Hv).
           rewrite Hend, He. split; [reflexivity|].
           split; [right; eauto|]. split; [discriminate|]. intros _. exact Hv.
        -- rewrite switchMap_failure. cbn.
           split; [reflexivity|]. split; [right; eauto|].
           split; [discriminate|]. intros _. right. eauto.
      * unfold throwError. rewrite switchMap_failure. cbn.
        split; [reflexivity|]. split; [now left|].
        split; [discriminate|]. intros _. right. eauto.
Qed.

(** Without context templates the panel does not search: it sets an
    empty list of templates and marks them loaded. *)
Theorem open_panel_without_context_templates
  (api : Collaborators) (st : State) :
  contextTemplates st = [] ->
  truthy (mapTemplatesLoaded st) = false ->
  openMapTemplatesPanelEpic api st OpenMapTemplatesPanel =
  mkObs []
    [SetControlProperty "mapTemplates" "enabled" (JBool true) (JBool true);
     SetTemplates (JArr []); SetMapTemplatesLoaded true JUndefined]
    Completed.
Proof.
  intros Hc Hl. rewrite open_panel_unfold, Hc, Hl. reflexivity.
Qed.

Lemma open_panel_without_context_templates_witness :
  effects (openMapTemplatesPanelEpic Samples.api Samples.noContextState
             OpenMapTemplatesPanel) = [] /\
  In (SetTemplates (JArr []))
     (values (openMapTemplatesPanelEpic Samples.api Samples.noContextState
                OpenMapTemplatesPanel)).
Proof.
  rewrite (open_panel_without_context_templates Samples.api
             Samples.noContextState eq_refl eq_refl).
  split; [reflexivity | right; left; reflexivity].
Defined.

(** A failed search is recorded, not raised. When the templates are not
    loaded and the filter cannot be built (a context template is [null])
    or the search fails, the panel is enabled and the templates are
    marked loaded with the error: no list of templates is set. *)
Theorem open_panel_failure_is_recorded
  (api : Collaborators) (st : State) (e : JsVal) :
  truthy (mapTemplatesLoaded st) = false ->
  contextTemplates st <> [] ->
  makeFilter (contextTemplates st) = Throw e \/
  (exists filter, makeFilter (contextTemplates st) = Ok filter /\
                  searchListByAttributes api filter = Throw e) ->
  values (openMapTemplatesPanelEpic api st OpenMapTemplatesPanel) =
    [SetControlProperty "mapTemplates" "enabled" (JBool true) (JBool true);
     SetMapTemplatesLoaded true e] /\
  ending (openMapTemplatesPanelEpic api st OpenMapTemplatesPanel) = Completed.
Proof.
  intros Hl Hc Hfail. rewrite open_panel_unfold, Hl. cbn [negb].
  destruct (contextTemplates st) as [|c cs] eqn:Ec; [contradiction|].
  cbn [List.length Nat.ltb Nat.leb].
  destruct Hfail as [Hf|(filter & Hf & Hs)]; rewrite Hf.
  - unfold throwError. rewrite switchMap_failure. split; reflexivity.
  - rewrite Hs. cbn [defer]. rewrite switchMap_failure. split; reflexivity.
Qed.

Lemma open_panel_failure_is_recorded_witness :
  values (openMapTemplatesPanelEpic Samples.refusingApi Samples.state
            OpenMapTemplatesPanel) =
  [SetControlProperty "mapTemplates" "enabled" (JBool true) (JBool true);
   SetMapTemplatesLoaded true Samples.forbidden].
Proof.
  apply (open_panel_failure_is_recorded Samples.refusingApi Samples.state
           Samples.forbidden); [reflexivity | discriminate |].
  right. eexists. split; reflexivity.
Defined.

Lemma mapM_nth {A B} (f : A -> Result B) (xs : list A) (ys : list B) :
  mapM f xs = Ok ys ->
  forall n x, nth_error xs n = Some x ->
    exists y, nth_error ys n = Some y /\ f x = Ok y.
Proof.
  revert ys. induction xs as [|x0 xs IH]; intros ys H n x Hn.
  - destruct n; discriminate.
  - cbn [mapM] in H. apply bind_Ok in H as (y0 & Hy & H).
    apply bind_Ok in H as (ys' & Hys & H). apply Ok_inj in H. subst ys.
    destruct n as [|n]; simpl in Hn |- *.
    + injection Hn as <-. eauto.
    + eapply IH; eassumption.
Qed.

Lemma mapM_total {A B} (f : A -> Result B) (xs : list A) :
  (forall x, In x xs -> exists y, f x = Ok y) ->
  exists ys, mapM f xs = Ok ys.
Proof.
  induction xs as [|x xs IH]; intros H.
  - exists []. reflexivity.
  - destruct (H x (or_introl eq_refl)) as (y & Hy).
    destruct IH as (ys & Hys); [intros; apply H; now right|].
    exists (y :: ys). cbn [mapM]. now rewrite Hy, Hys.
Qed.

(** The filter of the search has one [ID EQUAL_TO] clause for each
    context template, in order, with the id of that template as value;
    it can be built exactly when no context template is [null] or
    [undefined]. *)
Theorem makeFilter_clauses (cts : list JsVal) :
  (forall filter, makeFilter cts = Ok filter ->
     exists fields,
       filter = JObj [("OR", JObj [("FIELD", JArr fields)])] /\
       List.length fields = List.length cts /\
       forall n c, nth_error cts n = Some c ->
         nth_error fields n =
         Some (JObj [("field", JArr [JStr "ID"]);
                     ("operator", JArr [JStr "EQUAL_TO"]);
                     ("value", JArr [lookup c "id"])])) /\
  ((forall c, In c cts -> nullish c = false) <->
   exists filter, makeFilter cts = Ok filter).
Proof.
  split.
  - intros filter H. unfold makeFilter in H.
    apply bind_Ok in H as (fields & Hm & H). apply Ok_inj in H. subst filter.
    exists fields. split; [reflexivity|].
    split; [eapply mapM_length, Hm|].
    intros n c Hn. destruct (mapM_nth _ _ _ Hm n c Hn) as (y & Hy & Hc).
    apply bind_Ok in Hc as (id & Hid & Hc). apply member_Ok in Hid as [_ ->].
    apply Ok_inj in Hc. now subst y.
  - split.
    + intros Hall. unfold makeFilter.
      destruct (mapM_total
                  (fun template =>
                     id <- member template "id" ;;
                     Ok (JObj [("field", JArr [JStr "ID"]);
                               ("operator", JArr [JStr "EQUAL_TO"]);
                               ("value", JArr [id])])) cts) as (ys & Hys).
      * intros c Hc. rewrite (member_not_nullish _ _ (Hall c Hc)). cbn. eauto.
      * rewrite Hys. cbn. eauto.
    + intros (filter & H) c Hc. unfold makeFilter in H.
      apply bind_Ok in H as (fields & Hm & _).
      apply In_nth_error in Hc as (n & Hn).
      destruct (mapM_nth _ _ _ Hm n c Hn) as (y & _ & Hy).
      apply bind_Ok in Hy as (id & Hid & _). now apply member_Ok in Hid.
Qed.

Lemma find_Ok (xs : list JsVal) (p : JsVal -> Result bool) (r : JsVal) :
  find xs p = Ok r ->
  (In r xs /\ p r = Ok true) \/ r = JUndefined.
Proof.
  induction xs as [|x xs IH]; cbn [find]; intros H.
  - apply Ok_inj in H. now right.
  - apply bind_Ok in H as (b & Hb & H). destruct b.
    + apply Ok_inj in H. subst r. left. split; [now left | assumption].
    + destruct (IH H) as [[Hin Hp]|Hu]; [left; split; [now right|assumption]
                                        |now right].
Qed.

Lemma strict_eq_str (v : JsVal) (s : string) :
  strict_eq v (JStr s) = true -> v = JStr s.
Proof.
  destruct v; simpl; try discriminate. intros H.
  apply String.eqb_eq in H. now subst.
Qed.

(** A thumbnail comes from an attribute named [thumbnail]. Whatever
    [extractThumbnail] returns other than [undefined] is the [value] of
    one of the attributes of the resource (the single attribute, or one
    of the array) whose [name] is ['thumbnail']; a resource without
    attributes has the thumbnail [undefined]. *)
Theorem thumbnail_comes_from_named_attribute (resource : JsVal) :
  (forall v, extractThumbnail resource = Ok v -> v <> JUndefined ->
     exists a,
       In a (array_or_singleton
               (get resource ["Attributes"; "attribute"] (JObj []))) /\
       lookup a "name" = JStr "thumbnail" /\
       lookup a "value" = v) /\
  (get_path resource ["Attributes"; "attribute"] = JUndefined ->
   extractThumbnail resource = Ok JUndefined).
Proof.
  split.
  - intros v H Hv. unfold extractThumbnail in H.
    apply bind_Ok in H as (found & Hf & H). apply Ok_inj in H.
    apply find_Ok in Hf as [[Hin Hp]| ->].
    + exists found. split; [exact Hin|].
      apply bind_Ok in Hp as (name & Hn & Hp).
      apply member_Ok in Hn as [Hnull ->]. apply Ok_inj in Hp.
      split; [now apply strict_eq_str|].
      subst v. unfold get. cbn [get_path]. rewrite Hnull.
      destruct (lookup found "value"); reflexivity.
    + subst v. now contradiction Hv.
  - intros Hu. unfold extractThumbnail, get. rewrite Hu. reflexivity.
Qed.

Lemma thumbnail_comes_from_named_attribute_witness :
  extractThumbnail Samples.resource = Ok (JStr "roads.png") /\
  exists a,
    In a (array_or_singleton
            (get Samples.resource ["Attributes"; "attribute"] (JObj []))) /\
    lookup a "name" = JStr "thumbnail" /\
    lookup a "value" = JStr "roads.png".
Proof.
  split; [reflexivity|].
  apply (proj1 (thumbnail_comes_from_named_attribute Samples.resource));
    [reflexivity | discriminate].
Defined.

Lemma has_in_false_lookup (v : JsVal) (k : string) :
  has_in v k = false -> lookup v k = JUndefined.
Proof.
  unfold has_in, lookup. destruct (assoc k (own_props v)); [discriminate|].
  destruct (inherited v k); [discriminate | reflexivity].
Qed.

(** A template keeps the [id], the [name] and the [description] of its
    resource and nothing else of it: its only keys are these three (when
    the resource has them), [thumbnail], [dataLoaded] and [loading]. *)
Theorem newTemplate_keeps_resource_fields (resource t : JsVal) :
  newTemplate resource = Ok t ->
  nullish resource = false ->
  lookup t "id" = lookup resource "id" /\
  lookup t "name" = lookup resource "name" /\
  lookup t "description" = lookup resource "description" /\
  (forall k, has_in t k = true ->
     k = "id" \/ k = "name" \/ k = "description" \/
     k = "thumbnail" \/ k = "dataLoaded" \/ k = "loading").
Proof.
  unfold newTemplate. intros H Hn.
  apply bind_Ok in H as (thumbnail & _ & H). apply Ok_inj in H. subst t.
  unfold pick. rewrite Hn. cbn [fold_left].
  destruct (has_in resource "id") eqn:E1;
    destruct (has_in resource "name") eqn:E2;
    destruct (has_in resource "description") eqn:E3;
    cbn [obj_set String.eqb Ascii.eqb Bool.eqb];
    (split; [|split; [|split]]);
    try (cbn; first [reflexivity | symmetry; now apply has_in_false_lookup]);
    (intros k; unfold has_in; cbn [own_props inherited assoc];
     repeat match goal with
            | |- context [String.eqb ?a k] =>
                destruct (String.eqb_spec a k); [subst; auto 7|]
            end;
     discriminate).
Qed.

Lemma newTemplate_keeps_resource_fields_witness :
  exists t,
    newTemplate Samples.resource = Ok t /\
    lookup t "id" = JNum 7 /\ lookup t "name" = JStr "roads" /\
    has_in t "Attributes" = false.
Proof.
  eexists. split; [reflexivity|].
  destruct (newTemplate_keeps_resource_fields Samples.resource _
              eq_refl eq_refl) as (Hi & Hna & _).
  split; [exact Hi|]. split; [exact Hna | reflexivity].
Defined.

(* ================================================================== *)
(** ** Data that slips through the guards of merge and replace *)

Lemma index_key_not_map (n : nat) : (index_key n =? "map") = false.
Proof.
  unfold index_key. destruct (Nat.to_uint n); reflexivity.
Qed.

Lemma assoc_map_indexed (xs : list JsVal) (n : nat) :
  assoc "map" (indexed n xs) = None.
Proof.
  revert n. induction xs as [|x xs IH]; intros n; cbn [indexed assoc].
  - reflexivity.
  - now rewrite index_key_not_map.
Qed.

(** An array passes the test [isObject(data) && data.map !== undefined]:
    its [map] is [Array.prototype.map]. *)
Lemma hasMap_array (items : list JsVal) :
  lookup (JArr items) "map" = JFun "map" /\ hasMap (JArr items) = true.
Proof.
  assert (lookup (JArr items) "map" = JFun "map") as H.
  { unfold lookup. cbn [own_props]. now rewrite assoc_map_indexed. }
  split; [exact H|]. unfold hasMap. now rewrite H.
Qed.

(** C4, at data that is an array. An array is neither a string nor an
    object with a map of its own, yet it inherits [map] from
    [Array.prototype] and passes the guard of line 396: the merge branch
    runs, [mergeMapConfigs] is given the array as the template
    configuration, and a [ConfigureMap] is emitted. *)
Theorem merge_configures_map_from_array
  (api : Collaborators) (st st' : State) (id t cur : JsVal)
  (items : list JsVal) (src : Obs JsVal) (merged : JsObj) :
  find (templates st) (idIs id) = Ok t ->
  templateData api t id = Ok src ->
  values src = [JArr items] ->
  saveMapConfiguration api (map st) (layers st) (groups st)
    (backgrounds st) (textSearchConfig st) (additionalOptions st) = Ok cur ->
  mergeMapConfigs api cur (JArr items) = Ok merged ->
  isString (JArr items) = false /\
  assoc "map" (own_props (JArr items)) = None /\
  values (mergeTemplateEpic api st st' (MergeTemplate id)) =
    SetTemplateLoading id true :: storeData t id (JArr items) ++
    [ConfigureMap (JObj (omit merged "widgetsConfig")) JNull JUndefined;
     SetTemplateLoading id false].
Proof.
  intros Hf Ht Hv Hs Hm. split; [reflexivity|].
  split; [apply assoc_map_indexed|].
  rewrite (mergeTemplateEpic_found _ _ _ _ _ _ Hf Ht).
  rewrite (single_value_source src (JArr items)
             (templateData_single_shot _ _ _ _ Ht) Hv).
  rewrite switchMap_value. unfold mergeData.
  rewrite (proj2 (hasMap_array items)). cbn [orb]. rewrite Hs. cbn [bind].
  change (mergeConfigSource api (JArr items))
    with (@mkObs JsVal [] [JArr items] Completed).
  rewrite switchMap_value, Hm. cbn [bind effects values ending of_].
  rewrite cloneDeep_id, wrapStartStop_values. cbn [ending values].
  now rewrite <- app_assoc.
Qed.

Lemma merge_configures_map_from_array_witness :
  values (mergeTemplateEpic Samples.api Samples.arrayState Samples.arrayState
            (MergeTemplate (JNum 4))) =
  [SetTemplateLoading (JNum 4) true;
   ConfigureMap (JObj [("map", Samples.currentMap); ("layers", JUndefined)])
     JNull JUndefined;
   SetTemplateLoading (JNum 4) false].
Proof.
  exact (proj2 (proj2
    (merge_configures_map_from_array Samples.api Samples.arrayState
       Samples.arrayState (JNum 4) Samples.arrayTemplate
       (JObj [("map", Samples.currentMap); ("layers", JArr [])])
       [] (of_ [JArr []])
       [("map", Samples.currentMap);
        ("widgetsConfig", JObj [("widgets", JArr [])]);
        ("layers", JUndefined)]
       eq_refl eq_refl eq_refl eq_refl eq_refl))).
Defined.

(** The run of a replace whose resolved configuration is truthy and has
    a [map]. *)
Lemma replaceTemplateEpic_configures
  (api : Collaborators) (st st' : State) (id t data config : JsVal)
  (src : Obs JsVal) :
  find (templates st) (idIs id) = Ok t ->
  nullish (map st) = false ->
  templateData api t id = Ok src ->
  values src = [data] ->
  values (replaceConfigSource api data) = [config] ->
  truthy config = true ->
  nullish (lookup config "map") = false ->
  values (replaceTemplateEpic api st st' (ReplaceTemplate id)) =
    SetTemplateLoading id true :: storeData t id data ++
    [ConfigureMap
       (JObj (obj_set "map"
                (JObj (obj_set "center"
                         (js_or (lookup (lookup config "map") "center")
                                (lookup (map st) "center"))
                      (obj_set "zoom"
                         (js_or (lookup (lookup config "map") "zoom")
                                (lookup (map st) "zoom"))
                      (own_props (lookup config "map")))))
                (own_props config)))
       JNull
       (if truthy (lookup (lookup config "map") "zoom") then JBool false
        else js_or (lookup (lookup config "map") "bbox")
                   (lookup (lookup config "map") "maxExtent"));
     SetTemplateLoading id false].
Proof.
  intros Hf Hm Ht Hv Hcv Htr Hn.
  rewrite (replaceTemplateEpic_found _ _ _ _ _ _ Hf Hm Ht).
  rewrite (single_value_source src data (templateData_single_shot _ _ _ _ Ht) Hv).
  rewrite switchMap_value. unfold replaceData.
  rewrite (single_value_source _ config
             (replaceConfigSource_single_shot api data) Hcv).
  rewrite switchMap_value. unfold replaceConfig, replacedConfig. rewrite Htr.
  rewrite !(member_not_nullish _ _ (truthy_not_nullish _ Htr)). cbn [bind].
  rewrite !(member_not_nullish _ _ Hn). cbn [bind].
  rewrite (zoomToExtentOf_Ok _ Hn). cbn [bind effects values ending of_].
  rewrite cloneDeep_id, wrapStartStop_values. cbn [ending values].
  now rewrite <- app_assoc.
Qed.

Lemma zoom_zero_has_map (config : JsVal) :
  lookup (lookup config "map") "zoom" = JNum 0 ->
  nullish (lookup config "map") = false.
Proof. destruct (lookup config "map"); try reflexivity; discriminate. Qed.

(** C5, at a template whose map has [zoom: 0]. The zoom is provided, and
    the configuration dispatched carries the zoom of the current map
    instead: [config.map.zoom || zoom] takes 0 for a missing zoom, against
    the comment of line 449, "if no zoom or center provided keep the
    current ones". *)
Theorem replace_discards_zoom_zero
  (api : Collaborators) (st st' : State) (id t data config : JsVal)
  (src : Obs JsVal) :
  find (templates st) (idIs id) = Ok t ->
  nullish (map st) = false ->
  templateData api t id = Ok src ->
  values src = [data] ->
  values (replaceConfigSource api data) = [config] ->
  truthy config = true ->
  lookup (lookup config "map") "zoom" = JNum 0 ->
  exists cfg flag,
    values (replaceTemplateEpic api st st' (ReplaceTemplate id)) =
      SetTemplateLoading id true :: storeData t id data ++
      [ConfigureMap cfg JNull flag; SetTemplateLoading id false] /\
    lookup (lookup cfg "map") "zoom" = lookup (map st) "zoom".
Proof.
  intros Hf Hm Ht Hv Hcv Htr Hz.
  rewrite (replaceTemplateEpic_configures _ _ _ _ _ _ _ _ Hf Hm Ht Hv Hcv Htr
             (zoom_zero_has_map _ Hz)).
  do 2 eexists. split; [reflexivity|].
  rewrite lookup_obj_set_same.
  rewrite lookup_obj_set_other by discriminate.
  rewrite lookup_obj_set_same, Hz. reflexivity.
Qed.

Lemma replace_discards_zoom_zero_witness :
  lookup (lookup Samples.worldData "map") "zoom" = JNum 0 /\
  exists cfg flag,
    values (replaceTemplateEpic Samples.api Samples.state Samples.state
              (ReplaceTemplate (JNum 1))) =
      [SetTemplateLoading (JNum 1) true; ConfigureMap cfg JNull flag;
       SetTemplateLoading (JNum 1) false] /\
    lookup (lookup cfg "map") "zoom" = JNum 5.
Proof.
  split; [reflexivity|].
  exact (replace_discards_zoom_zero Samples.api Samples.state Samples.state
           (JNum 1) Samples.cachedTemplate Samples.worldData Samples.worldData
           (of_ [Samples.worldData])
           eq_refl eq_refl eq_refl eq_refl eq_refl eq_refl eq_refl).
Defined.

(** C6, at a template whose map has [zoom: 0] and a bounding box. The
    map has a zoom, and the [ConfigureMap] of the replace carries the
    bounding box, a truthy value, as its "fit to extent" argument:
    [!config.map.zoom] takes 0 for a missing zoom. *)
Theorem replace_fits_extent_despite_zoom
  (api : Collaborators) (st st' : State) (id t data config : JsVal)
  (src : Obs JsVal) :
  find (templates st) (idIs id) = Ok t ->
  nullish (map st) = false ->
  templateData api t id = Ok src ->
  values src = [data] ->
  values (replaceConfigSource api data) = [config] ->
  truthy config = true ->
  lookup (lookup config "map") "zoom" = JNum 0 ->
  truthy (lookup (lookup config "map") "bbox") = true ->
  lookup (lookup config "map") "zoom" <> JUndefined /\
  exists cfg,
    values (replaceTemplateEpic api st st' (ReplaceTemplate id)) =
      SetTemplateLoading id true :: storeData t id data ++
      [ConfigureMap cfg JNull (lookup (lookup config "map") "bbox");
       SetTemplateLoading id false].
Proof.
  intros Hf Hm Ht Hv Hcv Htr Hz Hb.
  split; [rewrite Hz; discriminate|].
  rewrite (replaceTemplateEpic_configures _ _ _ _ _ _ _ _ Hf Hm Ht Hv Hcv Htr
             (zoom_zero_has_map _ Hz)).
  eexists. rewrite Hz. cbn [truthy Z.eqb negb]. unfold js_or at 3.
  rewrite Hb. reflexivity.
Qed.

Lemma replace_fits_extent_despite_zoom_witness :
  truthy Samples.worldBbox = true /\
  exists cfg,
    values (replaceTemplateEpic Samples.api Samples.state Samples.state
              (ReplaceTemplate (JNum 1))) =
      [SetTemplateLoading (JNum 1) true;
       ConfigureMap cfg JNull Samples.worldBbox;
       SetTemplateLoading (JNum 1) false].
Proof.
  split; [reflexivity|].
  exact (proj2
    (replace_fits_extent_despite_zoom Samples.api Samples.state Samples.state
       (JNum 1) Samples.cachedTemplate Samples.worldData Samples.worldData
       (of_ [Samples.worldData])
       eq_refl eq_refl eq_refl eq_refl eq_refl eq_refl eq_refl eq_refl)).
Defined.
